(** * GPR-20 axis driver: a shallow embedding of [gpr20_axis/axis_driver.py]

    The development follows the Python class [AxisDriver]:
    - a Python float is an IEEE 754 binary64 number, here the kernel's
      [float]: [+], [-], [*], [/] and the comparisons are the correctly
      rounded operations of [PrimFloat], a decimal literal stands for the
      nearest double, and [int], the int-to-float conversion and the
      comparison of an int with a float are defined on the decoded double
      ([Prim2SF]);
    - Python integers (pins, step counts, loop counters) are [Z];
    - the attributes of the object form the record [AxisDriver]; the
      methods keep their names, the constructor is [init];
    - exceptions are values of [exn]: the [AxisException] of the module
      and the built-in ones that the code lets through
      ([ZeroDivisionError], [IndexError], [AttributeError], and the
      [ValueError] and [OverflowError] of [int] and [time.sleep]);
      methods run in a state-and-error monad over [AxisDriver * World];
    - the two hardware interfaces are a boundary: the [World] is the list
      of the calls made on them, in order.  A call of
      [StepperInterface.step] is recorded when it is made and then raises
      what its [time.sleep] raises; the values returned by
      [EndstopInterface.sample] come from an oracle indexed by the number
      of samples taken so far.  Writes to the GPIO pins always succeed;
    - the [while] loop of [homing] takes fuel: [None] means that the loop is
      still running when the fuel is spent;
    - [move_in_flight] and [homing_in_flight] give the states that a call
      goes through, pulse by pulse. *)

From Stdlib Require Import ZArith List String Bool Lia Floats.
Import ListNotations.

#[local] Set Warnings "-inexact-float".

(** ** Exceptions and results *)

Inductive exn : Type :=
| AxisException (message : string)
| ZeroDivisionError
| IndexError
| AttributeError
| ValueError
| OverflowError.

Inductive result (A : Type) : Type :=
| Ok (a : A)
| Raise (e : exn).

Arguments Ok {A} a.
Arguments Raise {A} e.

Definition result_bind {A B : Type} (r : result A) (k : A -> result B)
  : result B :=
  match r with
  | Ok a => k a
  | Raise e => Raise e
  end.

Notation "x <-- r ;; k" := (result_bind r (fun x => k))
  (at level 61, r at next level, right associativity).

(** ** Python numerics *)

(** [int(x)] on a float truncates toward zero; it raises [ValueError] on a
    NaN and [OverflowError] on an infinity. *)
Definition py_int (x : float) : result Z :=
  match Prim2SF x with
  | S754_nan => Raise ValueError
  | S754_infinity _ => Raise OverflowError
  | S754_zero _ => Ok 0%Z
  | S754_finite s m e =>
      let a := Z.shiftl (Z.pos m) e in
      Ok (if s then (- a)%Z else a)
  end.

(** [float(i)], the conversion that [i * x] applies to an int [i]: the
    nearest double, ties to even.  (Python raises [OverflowError] where
    this gives an infinity, from [2^1024 - 2^970] on; the only ints
    converted here are loop indices below [step_intervals].) *)
Definition float_of_int (i : Z) : float :=
  SF2Prim (binary_normalize prec emax i 0 false).

(** [i == x] for an int and a float: the exact values are compared, so the
    test holds only when [x] is a whole number. *)
Definition py_int_eq_float (i : Z) (x : float) : bool :=
  match Prim2SF x with
  | S754_zero _ => (i =? 0)%Z
  | S754_finite s m e =>
      let a := Z.shiftl (Z.pos m) e in
      (Z.shiftl a (- e) =? Z.pos m)%Z
      && (i =? (if s then - a else a))%Z
  | _ => false
  end.

(** [x.is_integer()]: [x] is finite and a whole number. *)
Definition float_is_integer (x : float) : bool :=
  match Prim2SF x with
  | S754_zero _ => true
  | S754_finite _ m e =>
      (Z.shiftl (Z.shiftl (Z.pos m) e) (- e) =? Z.pos m)%Z
  | _ => false
  end.

(** [math.isfinite(x)]: [x] is neither a NaN nor an infinity. *)
Definition float_is_finite (x : float) : bool :=
  match Prim2SF x with
  | S754_zero _ | S754_finite _ _ _ => true
  | _ => false
  end.

(** True division [a / b] of floats: [ZeroDivisionError] when [b] is a
    zero of either sign. *)
Definition py_div (a b : float) : result float :=
  if (b =? 0)%float then Raise ZeroDivisionError else Ok (a / b)%float.

(** [range(n)]: empty when [n <= 0]. *)
Definition py_range (n : Z) : list Z := map Z.of_nat (seq 0 (Z.to_nat n)).

(** List indexing [l[i]] for a non-negative literal index. *)
Definition py_index {A : Type} (l : list A) (i : nat) : result A :=
  match nth_error l i with
  | Some a => Ok a
  | None => Raise IndexError
  end.

(** [time.sleep(secs)] as CPython 3 has it: a NaN is a [ValueError]; a
    length whose count of nanoseconds does not fit a signed 64-bit integer
    is an [OverflowError]; a negative length is a [ValueError]. *)
Definition time_sleep (secs : float) : result unit :=
  if is_nan secs then Raise ValueError
  else
    let ns := (secs * 1e9)%float in
    if (ns <? -9223372036854775808)%float
       || (9223372036854775808 <=? ns)%float
    then Raise OverflowError
    else if (secs <? 0)%float then Raise ValueError
    else Ok tt.

(** ** The driver object and the hardware boundary *)

Record AxisDriver : Type := mkAxisDriver {
  dir_pin : Z;
  step_pin : Z;
  sensor_pin : option Z;
  (** [Some pin] when an [EndstopInterface] was created on [pin]; [None]
      when the attribute is [None] or was never set. *)
  endstop_interface : option Z;
  step_size : float;
  min_step : float;
  max_step : float;
  delta_step : float;
  step_intervals : Z;
  min_coord : float;
  max_coord : float;
  axis_type : string;
  current_coord : float;
  homing_done : bool;
  busy : bool
}.

Definition set_current_coord (c : float) (d : AxisDriver) : AxisDriver :=
  mkAxisDriver (dir_pin d) (step_pin d) (sensor_pin d) (endstop_interface d)
    (step_size d) (min_step d) (max_step d) (delta_step d) (step_intervals d)
    (min_coord d) (max_coord d) (axis_type d) c (homing_done d) (busy d).

Definition set_homing_done (b : bool) (d : AxisDriver) : AxisDriver :=
  mkAxisDriver (dir_pin d) (step_pin d) (sensor_pin d) (endstop_interface d)
    (step_size d) (min_step d) (max_step d) (delta_step d) (step_intervals d)
    (min_coord d) (max_coord d) (axis_type d) (current_coord d) b (busy d).

Definition set_busy (b : bool) (d : AxisDriver) : AxisDriver :=
  mkAxisDriver (dir_pin d) (step_pin d) (sensor_pin d) (endstop_interface d)
    (step_size d) (min_step d) (max_step d) (delta_step d) (step_intervals d)
    (min_coord d) (max_coord d) (axis_type d) (current_coord d)
    (homing_done d) b.

(** A call made on one of the two hardware interfaces:
    [step(direction, pause_val)] on the stepper, or [sample()] on the
    endstop with the value it returned. *)
Inductive hw_call : Type :=
| Step (direction : bool) (pause_val : float)
| Sample (pressed : bool).

(** What the hardware has seen: the calls in the order they were made. *)
Abbreviation World := (list hw_call).

(** The calls of [step] among them, in order. *)
Fixpoint steps (w : World) : list (bool * float) :=
  match w with
  | [] => []
  | Step direction pause_val :: w' => (direction, pause_val) :: steps w'
  | Sample _ :: w' => steps w'
  end.

(** How many times the endstop was sampled. *)
Fixpoint samples (w : World) : nat :=
  match w with
  | [] => 0
  | Step _ _ :: w' => samples w'
  | Sample _ :: w' => S (samples w')
  end.

Definition State : Type := (AxisDriver * World)%type.

(** ** State-and-error monad *)

Definition M (A : Type) : Type := State -> result A * State.

Definition ret {A : Type} (a : A) : M A := fun s => (Ok a, s).

Definition raise {A : Type} (e : exn) : M A := fun s => (Raise e, s).

Definition bind {A B : Type} (m : M A) (k : A -> M B) : M B :=
  fun s =>
    match m s with
    | (Ok a, s') => k a s'
    | (Raise e, s') => (Raise e, s')
    end.

Notation "x <- m ;; k" := (bind m (fun x => k))
  (at level 61, m at next level, right associativity).
Notation "m ;;; k" := (bind m (fun _ => k))
  (at level 61, right associativity).

Definition get_driver : M AxisDriver := fun s => (Ok (fst s), s).

Definition modify_driver (f : AxisDriver -> AxisDriver) : M unit :=
  fun s => (Ok tt, (f (fst s), snd s)).

Definition lift_result {A : Type} (r : result A) : M A := fun s => (r, s).

(** [for x in l: body(x)] *)
Fixpoint for_each {A : Type} (l : list A) (body : A -> M unit) : M unit :=
  match l with
  | [] => ret tt
  | x :: l' => body x ;;; for_each l' body
  end.

(** [StepperInterface.step(direction, pause_val)]: the direction pin and
    the step pin are written, [time.sleep(pause_val)] runs, the step pin is
    lowered and [time.sleep(pause_val)] runs again.  The call raises what
    [time.sleep] raises. *)
Definition stepper_step (direction : bool) (pause_val : float) : M unit :=
  fun s =>
    (_ <-- time_sleep pause_val ;; time_sleep pause_val,
     (fst s, snd s ++ [Step direction pause_val])).

(** [self._endstop_interface.sample()]; an [AttributeError] when there is no
    interface object. *)
Definition endstop_sample (sensor : nat -> bool) : M bool :=
  fun s =>
    match endstop_interface (fst s) with
    | None => (Raise AttributeError, s)
    | Some _ =>
        let pressed := sensor (samples (snd s)) in
        (Ok pressed, (fst s, snd s ++ [Sample pressed]))
    end.

(** ** [AxisDriver.__init__] *)

Definition init (pin_values : list Z) (step_values coord_values : list float)
  (axis_type : string) : result AxisDriver :=
  _dir_pin <-- py_index pin_values 0 ;;
  _step_pin <-- py_index pin_values 1 ;;
  if Z.eqb _step_pin _dir_pin then
    Raise (AxisException
             "Pins number for step and direction must be different")
  else
    _step_size <-- py_index step_values 0 ;;
    _min_step <-- py_index step_values 1 ;;
    _max_step <-- py_index step_values 2 ;;
    _delta_step <-- py_index step_values 3 ;;
    let step_time_delta := (_max_step - _min_step)%float in
    ratio <-- py_div step_time_delta _delta_step ;;
    whole <-- py_int ratio ;;
    let _step_intervals := (whole + 1)%Z in
    _min_coord <-- py_index coord_values 0 ;;
    _max_coord <-- py_index coord_values 1 ;;
    if String.eqb axis_type "LIN" then
      _sensor_pin <-- py_index pin_values 2 ;;
      if Z.eqb _dir_pin _sensor_pin then
        Raise (AxisException "Direction pin number is equal to sensor pin.")
      else if Z.eqb _step_pin _sensor_pin then
        Raise (AxisException "Step pin number is equal to sensor pin.")
      else
        Ok (mkAxisDriver _dir_pin _step_pin (Some _sensor_pin)
              (Some _sensor_pin) _step_size _min_step _max_step _delta_step
              _step_intervals _min_coord _max_coord axis_type
              (-1) false false)
    else
      (* 'ROT' sets both sensor attributes to None; any other string leaves
         them unset *)
      Ok (mkAxisDriver _dir_pin _step_pin None None _step_size _min_step
            _max_step _delta_step _step_intervals _min_coord _max_coord
            axis_type (-1) false false).

(** ** The step-time planner *)

Definition _create_steps_list (d : AxisDriver) (n_steps : Z) : list float :=
  if ((n_steps <? 2 * step_intervals d) && (n_steps >? 0))%Z then
    map (fun _ => max_step d) (py_range n_steps)
  else if (n_steps =? 2 * step_intervals d)%Z then
    map (fun i => (max_step d - float_of_int i * delta_step d)%float)
        (py_range (step_intervals d))
    ++ map (fun i => (min_step d + float_of_int i * delta_step d)%float)
           (py_range (step_intervals d))
  else if (n_steps >? 2 * step_intervals d)%Z then
    let const_steps := (n_steps - 2 * step_intervals d)%Z in
    map (fun i => (max_step d - float_of_int i * delta_step d)%float)
        (py_range (step_intervals d))
    ++ map (fun _ => min_step d) (py_range const_steps)
    ++ map (fun i => (min_step d + float_of_int i * delta_step d)%float)
           (py_range (step_intervals d))
  else
    [].

(** ** Helper methods of [move_to_coordinate] *)

Definition _check_availability : M unit :=
  self <- get_driver ;;
  if busy self then raise (AxisException "Axis is busy!") else ret tt.

Definition _check_homing : M unit :=
  self <- get_driver ;;
  if negb (homing_done self) then
    modify_driver (set_busy false) ;;;
    raise (AxisException "Homing has not been performed!")
  else ret tt.

Definition _check_valid_target (target_coord : float) : M unit :=
  self <- get_driver ;;
  if (max_coord self <? target_coord)%float then
    modify_driver (set_busy false) ;;;
    raise (AxisException
             "Target coordinate is above maximum coordinate for axis!")
  else if (target_coord <? min_coord self)%float then
    modify_driver (set_busy false) ;;;
    raise (AxisException
             "Targte coordinate is below minimum coordinate for axis!")
  else ret tt.

Definition _calculate_delta_distance (target_coord : float) : M float :=
  self <- get_driver ;;
  ret (current_coord self - target_coord)%float.

Definition _calculate_direction (distance_delta : float) : bool :=
  if (distance_delta <? 0)%float then true else false.

Definition _calculate_steps (distance_delta : float) : M Z :=
  self <- get_driver ;;
  ratio <- lift_result (py_div (abs distance_delta) (step_size self)) ;;
  lift_result (py_int ratio).

(** Body of the [for pause_val in steps_list] loop. *)
Definition move_body (move_direction : bool) (pause_val : float) : M unit :=
  stepper_step move_direction pause_val ;;;
  if move_direction then
    modify_driver
      (fun self =>
         set_current_coord (current_coord self + step_size self)%float self)
  else
    modify_driver
      (fun self =>
         set_current_coord (current_coord self - step_size self)%float self).

(** ** [move_to_coordinate] *)

Definition move_to_coordinate (target_coord : float) : M unit :=
  _check_availability ;;;
  modify_driver (set_busy true) ;;;
  _check_homing ;;;
  _check_valid_target target_coord ;;;
  distance_delta <- _calculate_delta_distance target_coord ;;
  let move_direction := _calculate_direction distance_delta in
  n_steps <- _calculate_steps distance_delta ;;
  self <- get_driver ;;
  let steps_list := _create_steps_list self n_steps in
  for_each steps_list (move_body move_direction) ;;;
  modify_driver (set_busy false).

(** The same call observed in flight: the state reached when the first [k]
    passes of the loop have run (the axis has not been released). *)
Definition move_in_flight (k : nat) (target_coord : float) : M unit :=
  _check_availability ;;;
  modify_driver (set_busy true) ;;;
  _check_homing ;;;
  _check_valid_target target_coord ;;;
  distance_delta <- _calculate_delta_distance target_coord ;;
  let move_direction := _calculate_direction distance_delta in
  n_steps <- _calculate_steps distance_delta ;;
  self <- get_driver ;;
  let steps_list := _create_steps_list self n_steps in
  for_each (firstn k steps_list) (move_body move_direction).

(** ** [homing] *)

(** One pass through the body of [while not reached_sensor].  The result is
    [Ok true] when the loop exits, [Ok false] when it goes round again. *)
Definition homing_body (sensor : nat -> bool) (max_steps : float)
  (executed_steps : Z) : M bool :=
  self <- get_driver ;;
  stepper_step false (max_step self) ;;;
  let executed_steps := (executed_steps + 1)%Z in
  reached_sensor <- endstop_sample sensor ;;
  if py_int_eq_float executed_steps max_steps then
    raise (AxisException "Maximum steps for axis have been achieved")
  else ret reached_sensor.

Fixpoint homing_loop (fuel : nat) (sensor : nat -> bool) (max_steps : float)
  (executed_steps : Z) (s : State) : option (result unit * State) :=
  match fuel with
  | O => None
  | S fuel' =>
      match homing_body sensor max_steps executed_steps s with
      | (Raise e, s') => Some (Raise e, s')
      | (Ok true, s') => Some (Ok tt, s')
      | (Ok false, s') =>
          homing_loop fuel' sensor max_steps (executed_steps + 1)%Z s'
      end
  end.

Definition homing (fuel : nat) (sensor : nat -> bool) (s : State)
  : option (result unit * State) :=
  let self := fst s in
  if String.eqb (axis_type self) "ROT" then
    Some (Ok tt,
          (set_homing_done true (set_current_coord (min_coord self) self),
           snd s))
  else
    match py_div (max_coord self - min_coord self) (step_size self) with
    | Raise e => Some (Raise e, s)
    | Ok max_steps =>
        match homing_loop fuel sensor max_steps 0%Z s with
        | None => None
        | Some (Raise e, s') => Some (Raise e, s')
        | Some (Ok _, s') =>
            Some (Ok tt,
                  (set_homing_done true
                     (set_current_coord (min_coord (fst s')) (fst s')),
                   snd s'))
        end
    end.

(** The state at the top of [homing]'s loop when [k] passes have run and
    none of them has ended the loop; [None] when the loop has ended before. *)
Fixpoint homing_in_flight (k : nat) (sensor : nat -> bool) (max_steps : float)
  (executed_steps : Z) (s : State) : option State :=
  match k with
  | O => Some s
  | S k' =>
      match homing_body sensor max_steps executed_steps s with
      | (Ok false, s') =>
          homing_in_flight k' sensor max_steps (executed_steps + 1)%Z s'
      | _ => None
      end
  end.

(** ** States reachable through the public interface *)

Definition world0 : World := [].

Inductive reachable (sensor : nat -> bool) (d0 : AxisDriver) : State -> Prop :=
| reach_init : reachable sensor d0 (d0, world0)
| reach_homing : forall fuel s r s',
    reachable sensor d0 s ->
    homing fuel sensor s = Some (r, s') ->
    reachable sensor d0 s'
| reach_move : forall target_coord s r s',
    reachable sensor d0 s ->
    move_to_coordinate target_coord s = (r, s') ->
    reachable sensor d0 s'.

(** ** Notions used in the statements *)

(** The documented domain of the configuration attributes, with
    [step_intervals] as [__init__] computes it. *)
Record valid_config (d : AxisDriver) : Prop := {
  vc_step_size : (0 <? step_size d)%float = true;
  vc_min_step : (0 <? min_step d)%float = true;
  vc_min_max_step : (min_step d <=? max_step d)%float = true;
  vc_delta_step : (0 <? delta_step d)%float = true;
  vc_min_max_coord : (min_coord d <=? max_coord d)%float = true;
  vc_step_intervals :
    py_int ((max_step d - min_step d) / delta_step d)
    = Ok (step_intervals d - 1)%Z
}.

(** [min_coord <= current_coord <= max_coord], as the program compares
    floats. *)
Definition in_range (d : AxisDriver) : Prop :=
  (min_coord d <=? current_coord d)%float = true
  /\ (current_coord d <=? max_coord d)%float = true.

(** Attributes that no method writes after construction. *)
Definition same_config (d d' : AxisDriver) : Prop :=
  dir_pin d' = dir_pin d /\ step_pin d' = step_pin d
  /\ sensor_pin d' = sensor_pin d
  /\ endstop_interface d' = endstop_interface d
  /\ step_size d' = step_size d /\ min_step d' = min_step d
  /\ max_step d' = max_step d /\ delta_step d' = delta_step d
  /\ step_intervals d' = step_intervals d
  /\ min_coord d' = min_coord d /\ max_coord d' = max_coord d
  /\ axis_type d' = axis_type d.

(** The driver as the last two assignments of [homing] leave it. *)
Definition homed (d : AxisDriver) : AxisDriver :=
  set_homing_done true (set_current_coord (min_coord d) d).

(** The coordinate held after [k] passes of the loop of
    [move_to_coordinate], from coordinate [coord]: [k] rounded additions
    or subtractions of [step]. *)
Fixpoint walk (move_direction : bool) (k : nat) (coord step : float) : float :=
  match k with
  | O => coord
  | S k' => walk move_direction k'
              (if move_direction then coord + step else coord - step)%float
              step
  end.

(** The calls made by [k] passes of the loop of [homing] that all found
    the sensor not pressed: [step(False, pause_val)] then [sample()], [k]
    times. *)
Fixpoint idle_passes (pause_val : float) (k : nat) : World :=
  match k with
  | O => []
  | S k' => Step false pause_val :: Sample false :: idle_passes pause_val k'
  end.

(** The state of a linear axis when [k] more such passes have run: the
    driver as it was. *)
Definition after_pulses (d : AxisDriver) (w : World) (k : nat) : State :=
  (d, w ++ idle_passes (max_step d) k).

(** The message of the exception raised by [homing] when the pulse counter
    meets [max_steps]. *)
Definition max_steps_message : string :=
  "Maximum steps for axis have been achieved".

(** The sign of a float is not negative (a zero of either sign counts, and
    so does a NaN, which has no sign). *)
Definition not_negative (x : float) : Prop :=
  match Prim2SF x with
  | S754_finite s _ _ | S754_infinity s => s = false
  | S754_zero _ | S754_nan => True
  end.

(** ** Concrete drivers and sensors used as test inputs *)

(** A sensor that is never pressed. *)
Definition never_triggered : nat -> bool := fun _ => false.

(** A sensor pressed exactly on the listed samples. *)
Definition pressed_at (l : list nat) : nat -> bool :=
  fun i => existsb (Nat.eqb i) l.

(** A linear axis from 0 to 1 with steps of 0.3. *)
Definition lin_driver : AxisDriver :=
  mkAxisDriver 3 5 (Some 7%Z) (Some 7%Z) 0.3 0.001 0.003 0.001 3 0 1
    "LIN" (-1) false false.

(** A rotational axis from -2 to 2 with steps of 0.1. *)
Definition rot_driver : AxisDriver :=
  mkAxisDriver 3 5 None None 0.1 0.001 0.003 0.001 3 (-2) 2 "ROT" (-1)
    false false.

(** A rotational axis from 0 to 1.2 with steps of 0.1. *)
Definition rot_driver2 : AxisDriver :=
  mkAxisDriver 3 5 None None 0.1 0.001 0.003 0.001 3 0 1.2 "ROT" (-1)
    false false.

(** [rot_driver] after [homing()]. *)
Definition rot_state1 : State := (homed rot_driver, world0).

(** A linear axis from 0 to 1 with steps of 0.5: a budget of two pulses. *)
Definition lin_driver2 : AxisDriver :=
  mkAxisDriver 3 5 (Some 7%Z) (Some 7%Z) 0.5 0.001 0.003 0.001 3 0 1
    "LIN" (-1) false false.

(** [lin_driver2] after a homing that found the sensor pressed on the
    first pulse. *)
Definition lin2_state1 : State :=
  (homed lin_driver2, [Step false 0.003; Sample true]).

(** [move_to_coordinate(target_coord)] gets past its three checks. *)
Definition passes_checks (target_coord : float) (d : AxisDriver) : Prop :=
  busy d = false /\ homing_done d = true
  /\ (max_coord d <? target_coord)%float = false
  /\ (target_coord <? min_coord d)%float = false.

(** The pauses that [time.sleep] accepts. *)
Definition accepted (pause_val : float) : Prop := time_sleep pause_val = Ok tt.

(** Every way a call [move_to_coordinate(target_coord)] can end, from the
    driver [d] and the log [w]: the result and the state it leaves. *)
Inductive move_outcome (target_coord : float) (d : AxisDriver) (w : World)
  : result unit -> State -> Prop :=
| move_busy :
    busy d = true ->
    move_outcome target_coord d w
      (Raise (AxisException "Axis is busy!")) (d, w)
| move_not_homed :
    busy d = false -> homing_done d = false ->
    move_outcome target_coord d w
      (Raise (AxisException "Homing has not been performed!")) (d, w)
| move_above :
    busy d = false -> homing_done d = true ->
    (max_coord d <? target_coord)%float = true ->
    move_outcome target_coord d w
      (Raise (AxisException
                "Target coordinate is above maximum coordinate for axis!"))
      (d, w)
| move_below :
    busy d = false -> homing_done d = true ->
    (max_coord d <? target_coord)%float = false ->
    (target_coord <? min_coord d)%float = true ->
    move_outcome target_coord d w
      (Raise (AxisException
                "Targte coordinate is below minimum coordinate for axis!"))
      (d, w)
| move_zero_step_size :
    passes_checks target_coord d ->
    (step_size d =? 0)%float = true ->
    move_outcome target_coord d w
      (Raise ZeroDivisionError) (set_busy true d, w)
| move_int_raises (e : exn) :
    passes_checks target_coord d ->
    (step_size d =? 0)%float = false ->
    py_int (abs (current_coord d - target_coord) / step_size d) = Raise e ->
    move_outcome target_coord d w (Raise e) (set_busy true d, w)
| move_done (n : Z) :
    passes_checks target_coord d ->
    (step_size d =? 0)%float = false ->
    py_int (abs (current_coord d - target_coord) / step_size d) = Ok n ->
    Forall accepted (_create_steps_list d n) ->
    let dir := _calculate_direction (current_coord d - target_coord) in
    let plan := _create_steps_list d n in
    move_outcome target_coord d w (Ok tt)
      (set_current_coord
         (walk dir (List.length plan) (current_coord d) (step_size d)) d,
       w ++ map (Step dir) plan)
| move_sleep_raises (n : Z) (done rest : list float) (p : float) (e : exn) :
    passes_checks target_coord d ->
    (step_size d =? 0)%float = false ->
    py_int (abs (current_coord d - target_coord) / step_size d) = Ok n ->
    _create_steps_list d n = done ++ p :: rest ->
    Forall accepted done ->
    time_sleep p = Raise e ->
    let dir := _calculate_direction (current_coord d - target_coord) in
    move_outcome target_coord d w (Raise e)
      (set_current_coord
         (walk dir (List.length done) (current_coord d) (step_size d))
         (set_busy true d),
       w ++ map (Step dir) (done ++ [p])).

(** ** The pin-level interfaces ([stepper_interface.py],
       [endstop_interface.py], [gpio_mock.py]) *)

(** [EndstopInterface.sample()] on an interface built with [sensor_pin],
    over a reading [gpio_input] of the pins. *)
Definition EndstopInterface_sample (gpio_input : Z -> bool) (sensor_pin : Z)
  : bool :=
  negb (gpio_input sensor_pin).

(** [GPIO.input] of the substitute library [gpio_mock]. *)
Definition gpio_mock_input (pin : Z) : bool := false.

(** The samples that a driver gets from an endstop on [sensor_pin] when the
    substitute library is in use. *)
Definition mock_sensor (sensor_pin : Z) : nat -> bool :=
  fun _ => EndstopInterface_sample gpio_mock_input sensor_pin.

(** The set-up calls that the constructors of the two interfaces make on
    the GPIO library. *)
Inductive setup_event : Type :=
| SetmodeBoard
| SetupOut (pin : Z)
| SetupIn (pin : Z).

(** [StepperInterface.__init__(dir_pin, step_pin)] *)
Definition StepperInterface_init (dir_pin step_pin : Z) : list setup_event :=
  [SetmodeBoard; SetupOut dir_pin; SetupOut step_pin].

(** [EndstopInterface.__init__(sensor_pin)] *)
Definition EndstopInterface_init (sensor_pin : Z) : list setup_event :=
  [SetmodeBoard; SetupIn sensor_pin].

(** [AxisDriver.__init__] again, this time with the set-up calls it has
    caused by the time it returns or raises. *)
Definition init_with_setup (pin_values : list Z)
  (step_values coord_values : list float) (axis_type : string)
  : result AxisDriver * list setup_event :=
  match py_index pin_values 0 with
  | Raise e => (Raise e, [])
  | Ok _dir_pin =>
  match py_index pin_values 1 with
  | Raise e => (Raise e, [])
  | Ok _step_pin =>
      if Z.eqb _step_pin _dir_pin then
        (Raise (AxisException
                  "Pins number for step and direction must be different"),
         [])
      else
        let setup := StepperInterface_init _dir_pin _step_pin in
        match
          (_step_size <-- py_index step_values 0 ;;
           _min_step <-- py_index step_values 1 ;;
           _max_step <-- py_index step_values 2 ;;
           _delta_step <-- py_index step_values 3 ;;
           let step_time_delta := (_max_step - _min_step)%float in
           ratio <-- py_div step_time_delta _delta_step ;;
           whole <-- py_int ratio ;;
           let _step_intervals := (whole + 1)%Z in
           _min_coord <-- py_index coord_values 0 ;;
           _max_coord <-- py_index coord_values 1 ;;
           Ok (fun (_sensor_pin _endstop_interface : option Z) =>
                 mkAxisDriver _dir_pin _step_pin _sensor_pin
                   _endstop_interface _step_size _min_step _max_step
                   _delta_step _step_intervals _min_coord _max_coord
                   axis_type (-1) false false))
        with
        | Raise e => (Raise e, setup)
        | Ok self =>
            if String.eqb axis_type "LIN" then
              match py_index pin_values 2 with
              | Raise e => (Raise e, setup)
              | Ok _sensor_pin =>
                  if Z.eqb _dir_pin _sensor_pin then
                    (Raise (AxisException
                              "Direction pin number is equal to sensor pin."),
                     setup)
                  else if Z.eqb _step_pin _sensor_pin then
                    (Raise (AxisException
                              "Step pin number is equal to sensor pin."),
                     setup)
                  else
                    (Ok (self (Some _sensor_pin) (Some _sensor_pin)),
                     setup ++ EndstopInterface_init _sensor_pin)
              end
            else (Ok (self None None), setup)
        end
  end
  end.

(** ** The two callbacks of the ROS node ([axis_node.py]) *)

(** What the node hands to ROS: an error log line, or the end of the
    current goal with the [result] field of the result message. *)
Inductive node_event : Type :=
| Logerr (message : string)
| SetSucceeded (result : bool)
| SetAborted (result : bool).

Record AxisNode : Type := mkAxisNode {
  axis_driver : State;
  (** the [result] field of the one result message the node keeps *)
  axis_action_res : bool;
  ros_out : list node_event
}.

(** [AxisNode.homing_handler]: only [AxisException] is caught. *)
Definition homing_handler (fuel : nat) (sensor : nat -> bool) (nd : AxisNode)
  : option (result unit * AxisNode) :=
  match homing fuel sensor (axis_driver nd) with
  | None => None
  | Some (Ok _, s') =>
      Some (Ok tt, mkAxisNode s' (axis_action_res nd) (ros_out nd))
  | Some (Raise (AxisException message), s') =>
      Some (Ok tt,
            mkAxisNode s' (axis_action_res nd)
              (ros_out nd ++ [Logerr message]))
  | Some (Raise e, s') =>
      Some (Raise e, mkAxisNode s' (axis_action_res nd) (ros_out nd))
  end.

(** [AxisNode.action_execute_cb] for a goal with [target_coordinate]. *)
Definition action_execute_cb (target_coordinate : float) (nd : AxisNode)
  : result unit * AxisNode :=
  match move_to_coordinate target_coordinate (axis_driver nd) with
  | (Ok _, s') =>
      (Ok tt, mkAxisNode s' true (ros_out nd ++ [SetSucceeded true]))
  | (Raise (AxisException message), s') =>
      (Ok tt,
       mkAxisNode s' false
         (ros_out nd ++ [SetAborted false; Logerr message]))
  | (Raise e, s') =>
      (Raise e, mkAxisNode s' (axis_action_res nd) (ros_out nd))
  end.

(** The messages of the exceptions that [move_to_coordinate] raises. *)
Definition move_messages : list string :=
  ["Axis is busy!"; "Homing has not been performed!";
   "Target coordinate is above maximum coordinate for axis!";
   "Targte coordinate is below minimum coordinate for axis!"]%string.

(** ** Proof automation *)

(** Unfolds the monadic code of a move and simplifies the state threading,
    leaving the arithmetic alone. *)
Ltac run_monad :=
  unfold move_to_coordinate, move_in_flight, _check_availability,
    _check_homing, _check_valid_target, _calculate_delta_distance,
    _calculate_steps, bind, get_driver, modify_driver, raise, ret,
    lift_result;
  cbn -[py_div py_int _create_steps_list for_each firstn time_sleep].

(** * Properties *)

(** ** Lists and the log of hardware calls *)

Lemma py_range_const {A : Type} (c : A) (n : Z) :
  map (fun _ => c) (py_range n) = repeat c (Z.to_nat n).
Proof.
  unfold py_range. rewrite map_map.
  generalize 0%nat. induction (Z.to_nat n) as [| k IH]; intros start.
  - reflexivity.
  - cbn. f_equal. apply IH.
Qed.

Lemma py_range_length (n : Z) : List.length (py_range n) = Z.to_nat n.
Proof. unfold py_range. now rewrite length_map, length_seq. Qed.

Lemma steps_app (w1 w2 : World) : steps (w1 ++ w2) = steps w1 ++ steps w2.
Proof.
  induction w1 as [| [dir p | b] w1 IH]; cbn; [reflexivity | | exact IH].
  now rewrite IH.
Qed.

Lemma samples_app (w1 w2 : World) :
  samples (w1 ++ w2) = (samples w1 + samples w2)%nat.
Proof.
  induction w1 as [| [dir p | b] w1 IH]; cbn; [reflexivity | exact IH |].
  now rewrite IH.
Qed.

Lemma steps_map_Step (dir : bool) (l : list float) :
  steps (map (Step dir) l) = map (pair dir) l.
Proof. induction l as [| p l IH]; cbn; [reflexivity | now rewrite IH]. Qed.

Lemma samples_map_Step (dir : bool) (l : list float) :
  samples (map (Step dir) l) = 0%nat.
Proof. induction l as [| p l IH]; cbn; [reflexivity | exact IH]. Qed.

Lemma idle_passes_snoc (p : float) (k : nat) :
  idle_passes p (S k) = idle_passes p k ++ [Step false p; Sample false].
Proof.
  induction k as [| k IH]; [reflexivity |].
  change (idle_passes p (S (S k)))
    with (Step false p :: Sample false :: idle_passes p (S k)).
  rewrite IH at 1. reflexivity.
Qed.

Lemma steps_idle_passes (p : float) (k : nat) :
  steps (idle_passes p k) = repeat (false, p) k.
Proof. induction k as [| k IH]; cbn; [reflexivity | now rewrite IH]. Qed.

Lemma samples_idle_passes (p : float) (k : nat) :
  samples (idle_passes p k) = k.
Proof. induction k as [| k IH]; cbn; [reflexivity | now rewrite IH]. Qed.

(** ** Record updates *)

Lemma set_busy_same (d : AxisDriver) (b : bool) :
  busy d = b -> set_busy b d = d.
Proof. intros <-. now destruct d. Qed.

Lemma same_config_refl (d : AxisDriver) : same_config d d.
Proof. unfold same_config. intuition. Qed.

Lemma same_config_trans (d1 d2 d3 : AxisDriver) :
  same_config d1 d2 -> same_config d2 d3 -> same_config d1 d3.
Proof. unfold same_config. intuition congruence. Qed.

(** ** Preconditions of [move_to_coordinate] *)

(** The three checks, in the order in which they are made. *)
Lemma move_to_coordinate_rejects
  (target_coord : float) (d : AxisDriver) (w : World) :
  (busy d = true ->
   move_to_coordinate target_coord (d, w)
   = (Raise (AxisException "Axis is busy!"), (d, w)))
  /\ (busy d = false -> homing_done d = false ->
      move_to_coordinate target_coord (d, w)
      = (Raise (AxisException "Homing has not been performed!"), (d, w)))
  /\ (busy d = false -> homing_done d = true ->
      (max_coord d <? target_coord)%float = true ->
      move_to_coordinate target_coord (d, w)
      = (Raise (AxisException
                  "Target coordinate is above maximum coordinate for axis!"),
         (d, w)))
  /\ (busy d = false -> homing_done d = true ->
      (max_coord d <? target_coord)%float = false ->
      (target_coord <? min_coord d)%float = true ->
      move_to_coordinate target_coord (d, w)
      = (Raise (AxisException
                  "Targte coordinate is below minimum coordinate for axis!"),
         (d, w))).
Proof.
  repeat split.
  - intros Hb. run_monad. now rewrite Hb.
  - intros Hb Hh. run_monad. rewrite Hb. run_monad. rewrite Hh. run_monad.
    destruct d; cbn in Hb |- *; now subst.
  - intros Hb Hh Hlt.
    run_monad. rewrite Hb. run_monad. rewrite Hh. run_monad.
    rewrite Hlt. run_monad.
    destruct d; cbn in Hb |- *; now subst.
  - intros Hb Hh Hle Hlt.
    run_monad. rewrite Hb. run_monad. rewrite Hh. run_monad.
    rewrite Hle. run_monad. rewrite Hlt. run_monad.
    destruct d; cbn in Hb |- *; now subst.
Qed.

(** C5: [move_to_coordinate] checks busy, then homed, then bounds.  It
    raises "Axis is busy!" when the busy flag is set; otherwise "Homing has
    not been performed!" when homing is not done; otherwise one of the two
    out-of-range messages when the target is above [max_coord]
    ([target_coord > max_coord] holds) or, that test failing, below
    [min_coord].  In each case the recorded hardware calls and every
    attribute of the driver, [current_coord] among them, are what they
    were before the call. *)
Theorem move_to_coordinate_preconditions
  (target_coord : float) (d : AxisDriver) (w : World) :
  (busy d = true ->
   move_to_coordinate target_coord (d, w)
   = (Raise (AxisException "Axis is busy!"), (d, w)))
  /\ (busy d = false -> homing_done d = false ->
      move_to_coordinate target_coord (d, w)
      = (Raise (AxisException "Homing has not been performed!"), (d, w)))
  /\ (busy d = false -> homing_done d = true ->
      (max_coord d <? target_coord)%float = true ->
      move_to_coordinate target_coord (d, w)
      = (Raise (AxisException
                  "Target coordinate is above maximum coordinate for axis!"),
         (d, w)))
  /\ (busy d = false -> homing_done d = true ->
      (max_coord d <? target_coord)%float = false ->
      (target_coord <? min_coord d)%float = true ->
      move_to_coordinate target_coord (d, w)
      = (Raise (AxisException
                  "Targte coordinate is below minimum coordinate for axis!"),
         (d, w))).
Proof. exact (move_to_coordinate_rejects target_coord d w). Qed.

(** ** The loop of [move_to_coordinate] *)

(** A call of [step] returns or raises as its first wait does. *)
Lemma stepper_step_run (dir : bool) (p : float) (d : AxisDriver) (w : World) :
  stepper_step dir p (d, w) = (time_sleep p, (d, w ++ [Step dir p])).
Proof.
  unfold stepper_step, result_bind. cbn [fst snd].
  destruct (time_sleep p) as [[] | e]; reflexivity.
Qed.

Lemma move_body_ok (dir : bool) (p : float) (d : AxisDriver) (w : World) :
  time_sleep p = Ok tt ->
  move_body dir p (d, w)
  = (Ok tt,
     (set_current_coord (walk dir 1 (current_coord d) (step_size d)) d,
      w ++ [Step dir p])).
Proof.
  intros Hp. unfold move_body, bind. rewrite stepper_step_run, Hp.
  now destruct dir.
Qed.

Lemma move_body_raise (dir : bool) (p : float) (d : AxisDriver) (w : World)
  (e : exn) :
  time_sleep p = Raise e ->
  move_body dir p (d, w) = (Raise e, (d, w ++ [Step dir p])).
Proof.
  intros Hp. unfold move_body, bind. now rewrite stepper_step_run, Hp.
Qed.

Lemma walk_succ (dir : bool) (k : nat) (c s : float) :
  walk dir (S k) c s
  = (if dir then walk dir k c s + s else walk dir k c s - s)%float.
Proof.
  revert c. induction k as [| k IH]; intros c; [reflexivity |].
  change (walk dir (S (S k)) c s)
    with (walk dir (S k) (if dir then c + s else c - s)%float s).
  rewrite IH. reflexivity.
Qed.

(** The loop over a plan whose pauses [time.sleep] all accepts. *)
Lemma for_each_move_body (plan : list float) (dir : bool) :
  Forall accepted plan ->
  forall (d : AxisDriver) (w : World),
    for_each plan (move_body dir) (d, w)
    = (Ok tt,
       (set_current_coord
          (walk dir (List.length plan) (current_coord d) (step_size d)) d,
        w ++ map (Step dir) plan)).
Proof.
  induction 1 as [| p plan Hp _ IH]; intros d w.
  - cbn. rewrite app_nil_r. now destruct d.
  - cbn [for_each]. unfold bind at 1.
    rewrite (move_body_ok _ _ _ _ Hp), IH.
    cbn [List.length map]. rewrite <- app_assoc. reflexivity.
Qed.

(** The loop over a plan in which [time.sleep] refuses a pause: the call
    of [step] with that pause is the last one, and the coordinate has been
    updated for the calls before it only. *)
Lemma for_each_move_body_raise (done rest : list float) (p : float)
  (e : exn) (dir : bool) :
  Forall accepted done ->
  time_sleep p = Raise e ->
  forall (d : AxisDriver) (w : World),
    for_each (done ++ p :: rest) (move_body dir) (d, w)
    = (Raise e,
       (set_current_coord
          (walk dir (List.length done) (current_coord d) (step_size d)) d,
        w ++ map (Step dir) (done ++ [p]))).
Proof.
  intros Hdone Hp. induction Hdone as [| q done Hq _ IH]; intros d w.
  - cbn [app for_each]. unfold bind.
    rewrite (move_body_raise _ _ _ _ _ Hp). now destruct d.
  - cbn [app for_each]. unfold bind at 1.
    rewrite (move_body_ok _ _ _ _ Hq), IH.
    cbn [List.length map app]. rewrite <- app_assoc. reflexivity.
Qed.

(** Where the first refused pause of a plan is, if there is one. *)
Lemma first_refused (plan : list float) :
  Forall accepted plan
  \/ exists (done rest : list float) (p : float) (e : exn),
       plan = done ++ p :: rest
       /\ Forall accepted done
       /\ time_sleep p = Raise e.
Proof.
  induction plan as [| q plan IH]; [left; constructor |].
  destruct (time_sleep q) as [[] | e] eqn:E.
  - destruct IH as [IH | (done & rest & p & e & -> & Hd & Hp)].
    + left. now constructor.
    + right. exists (q :: done), rest, p, e. repeat split; auto.
  - right. exists [], plan, q, e. repeat split; auto.
Qed.

(** ** Signs of rounded differences and quotients *)

Lemma digits2_pos_bounds (m : positive) :
  (2 ^ (Z.pos (digits2_pos m) - 1) <= Z.pos m
   < 2 ^ Z.pos (digits2_pos m))%Z.
Proof.
  induction m as [m IH | m IH |]; cbn [digits2_pos];
    rewrite ?Pos2Z.inj_succ;
    [change (Z.pos m~1) with (2 * Z.pos m + 1)%Z
    | change (Z.pos m~0) with (2 * Z.pos m)%Z
    | cbn; lia];
    replace (Z.succ (Z.pos (digits2_pos m)) - 1)%Z
      with (Z.succ (Z.pos (digits2_pos m) - 1)) by lia;
    rewrite !Z.pow_succ_r by lia; lia.
Qed.

Lemma iter_xO_value (m d : positive) :
  Z.pos (Pos.iter xO m d) = (Z.pos m * 2 ^ Z.pos d)%Z.
Proof.
  induction d as [| d IH] using Pos.peano_ind.
  - cbn. lia.
  - rewrite Pos.iter_succ, Pos2Z.inj_succ, Z.pow_succ_r by lia.
    change (Z.pos (Pos.iter xO m d)~0) with (2 * Z.pos (Pos.iter xO m d))%Z.
    rewrite IH. lia.
Qed.

Lemma shl_align_value (m : positive) (e ez : Z) :
  (ez <= e)%Z ->
  Z.pos (fst (shl_align m e ez)) = (Z.pos m * 2 ^ (e - ez))%Z.
Proof.
  intros Hle. unfold shl_align.
  destruct (ez - e)%Z as [| p | p] eqn:E; cbn [fst].
  - replace (e - ez)%Z with 0%Z by lia. cbn. lia.
  - lia.
  - rewrite iter_xO_value. f_equal. f_equal. lia.
Qed.

(** The mantissa of a double has at most 53 bits, and exactly 53 above the
    smallest exponent. *)
Lemma bounded_mantissa (m : positive) (e : Z) :
  bounded prec emax m e = true ->
  (Z.pos m < 2 ^ 53)%Z /\ (-1074 <= e)%Z
  /\ ((-1074 < e)%Z -> (2 ^ 52 <= Z.pos m)%Z).
Proof.
  unfold bounded, canonical_mantissa, fexp, SpecFloat.emin, prec, emax.
  intros H. apply andb_true_iff in H. destruct H as [H _].
  apply Z.eqb_eq in H.
  pose proof (digits2_pos_bounds m) as [Hlo Hhi].
  assert (Hd : (Z.pos (digits2_pos m) <= 53)%Z) by lia.
  repeat split.
  - eapply Z.lt_le_trans; [exact Hhi |].
    apply Z.pow_le_mono_r; lia.
  - lia.
  - intros He.
    assert (Hd' : Z.pos (digits2_pos m) = 53%Z) by lia.
    rewrite Hd' in Hlo. exact Hlo.
Qed.

(** Of two doubles the one with the larger exponent is the larger one. *)
Lemma larger_exponent (m m' : positive) (e e' : Z) :
  bounded prec emax m e = true -> bounded prec emax m' e' = true ->
  (e < e')%Z ->
  (Z.pos m < Z.pos m' * 2 ^ (e' - e))%Z.
Proof.
  intros H H' He.
  destruct (bounded_mantissa m e H) as (Hm & Hmin & _).
  destruct (bounded_mantissa m' e' H') as (_ & _ & Hn).
  specialize (Hn ltac:(lia)).
  assert (Hp : (2 ^ 1 <= 2 ^ (e' - e))%Z) by (apply Z.pow_le_mono_r; lia).
  change (2 ^ 1)%Z with 2%Z in Hp.
  change (2 ^ 53)%Z with (2 ^ 52 * 2)%Z in Hm.
  nia.
Qed.

Lemma binary_round_aux_sign (sx : bool) (mx ex : Z) (lx : location) :
  match binary_round_aux prec emax sx mx ex lx with
  | S754_finite s _ _ | S754_infinity s => s = sx
  | S754_zero _ | S754_nan => True
  end.
Proof.
  unfold binary_round_aux.
  destruct (shr_fexp prec emax mx ex lx) as [mrs' e'].
  destruct (shr_fexp prec emax _ e' loc_Exact) as [mrs'' e''].
  destruct (shr_m mrs''); [trivial | | trivial].
  destruct (Z.leb e'' (emax - prec)); reflexivity.
Qed.

Lemma binary_normalize_sign (m e : Z) :
  (0 <= m)%Z ->
  match binary_normalize prec emax m e false with
  | S754_finite s _ _ | S754_infinity s => s = false
  | S754_zero _ | S754_nan => True
  end.
Proof.
  intros Hm. destruct m as [| p | p]; [exact I | | lia].
  unfold binary_normalize, binary_round.
  destruct (shl_align p e _) as [mz ez].
  apply binary_round_aux_sign.
Qed.

(** [x - y] is not negative when [y <= x]. *)
Lemma sub_not_negative (x y : float) :
  (y <=? x)%float = true -> not_negative (x - y).
Proof.
  unfold not_negative. rewrite leb_spec, sub_spec.
  pose proof (Prim2SF_valid x) as Vx. pose proof (Prim2SF_valid y) as Vy.
  destruct (Prim2SF x) as [sx | sx | | sx mx ex];
    destruct (Prim2SF y) as [sy | sy | | sy my ey];
    unfold SFleb; cbn [SFcompare]; intros H;
    try discriminate H;
    try (destruct sx, sy; try discriminate H; cbn; trivial; fail).
  unfold SF64sub, SFsub.
  apply binary_normalize_sign.
  cbn [valid_binary] in Vx, Vy.
  rewrite !shl_align_value by lia.
  assert (Hx : (0 < 2 ^ (ex - Z.min ex ey))%Z) by (apply Z.pow_pos_nonneg; lia).
  assert (Hy : (0 < 2 ^ (ey - Z.min ex ey))%Z) by (apply Z.pow_pos_nonneg; lia).
  change (Pos.compare_cont Eq my mx) with (my ?= mx)%positive in H.
  destruct sx, sy; unfold cond_Zopp; try discriminate H; try nia;
    destruct (Z.compare_spec ey ex) as [E | E | E]; try discriminate H;
    try (subst ey; rewrite Z.min_id, Z.sub_diag;
         change (2 ^ 0)%Z with 1%Z;
         destruct (Pos.compare_spec my mx); try discriminate H; lia).
  - pose proof (larger_exponent mx my ex ey Vx Vy E).
    rewrite Z.min_l by lia. rewrite Z.sub_diag.
    change (2 ^ 0)%Z with 1%Z. lia.
  - pose proof (larger_exponent my mx ey ex Vy Vx E).
    rewrite Z.min_r by lia. rewrite Z.sub_diag.
    change (2 ^ 0)%Z with 1%Z. lia.
Qed.

(** [a / b] is not negative when [a] is not and [b] is positive. *)
Lemma div_not_negative (a b : float) :
  not_negative a -> (0 <? b)%float = true -> not_negative (a / b).
Proof.
  unfold not_negative. rewrite ltb_spec, div_spec.
  change (Prim2SF 0) with (S754_zero false).
  destruct (Prim2SF a) as [sa | sa | | sa ma ea];
    destruct (Prim2SF b) as [sb | sb | | sb mb eb];
    unfold SFltb; cbn [SFcompare]; intros Ha Hb;
    try discriminate Hb;
    try (destruct sb; try discriminate Hb; subst; cbn; trivial; fail).
  destruct sb; [discriminate Hb |]. subst sa.
  unfold SF64div, SFdiv.
  destruct (SFdiv_core_binary prec emax (Z.pos ma) ea (Z.pos mb) eb)
    as [[mz ez] lz].
  apply (binary_round_aux_sign false).
Qed.

(** [int] of a float that is not negative is not negative. *)
Lemma py_int_not_negative (x : float) (q : Z) :
  not_negative x -> py_int x = Ok q -> (0 <= q)%Z.
Proof.
  unfold not_negative, py_int.
  destruct (Prim2SF x) as [s | s | | s m e]; intros Hx H;
    try discriminate H; injection H as <-; [lia |].
  subst s. apply Z.shiftl_nonneg. lia.
Qed.

(** ** The step-time planner *)

(** Within the documented timing domain the constructor computes at least
    one speed level: the quotient that [int] truncates is not negative, so
    truncating it is taking its floor. *)
Lemma step_intervals_positive (mn mx dl : float) (q : Z) :
  (mn <=? mx)%float = true -> (0 <? dl)%float = true ->
  py_int ((mx - mn) / dl) = Ok q ->
  not_negative ((mx - mn) / dl) /\ (0 <= q)%Z.
Proof.
  intros Hmm Hd Hq.
  assert (Hn : not_negative ((mx - mn) / dl)).
  { apply div_not_negative; [now apply sub_not_negative | exact Hd]. }
  split; [exact Hn | exact (py_int_not_negative _ _ Hn Hq)].
Qed.

Lemma valid_config_intervals (d : AxisDriver) :
  valid_config d -> (1 <= step_intervals d)%Z.
Proof.
  intros [_ _ Hmm Hd _ HI].
  destruct (step_intervals_positive _ _ _ _ Hmm Hd HI) as [_ H]. lia.
Qed.

(** The plan has as many pauses as pulses were asked for, as soon as the
    number of speed levels is not negative. *)
Lemma create_steps_list_length (d : AxisDriver) (n : Z) :
  (0 <= step_intervals d)%Z -> (0 <= n)%Z ->
  List.length (_create_steps_list d n) = Z.to_nat n.
Proof.
  intros HI Hn. unfold _create_steps_list.
  destruct (Z.ltb_spec n (2 * step_intervals d));
    destruct (Z.gtb_spec n 0); cbn [andb].
  - now rewrite length_map, py_range_length.
  - destruct (Z.eqb_spec n (2 * step_intervals d)); [lia |].
    destruct (Z.gtb_spec n (2 * step_intervals d)); [lia |].
    cbn. lia.
  - destruct (Z.eqb_spec n (2 * step_intervals d)).
    + rewrite length_app, !length_map, !py_range_length. lia.
    + destruct (Z.gtb_spec n (2 * step_intervals d)); [| lia].
      rewrite !length_app, !length_map, !py_range_length. lia.
  - destruct (Z.eqb_spec n (2 * step_intervals d)).
    + rewrite length_app, !length_map, !py_range_length. lia.
    + lia.
Qed.

(** Spec example: three speed levels and ten pulses. *)
Example create_steps_list_ten :
  _create_steps_list
    (mkAxisDriver 3 5 None None 0.1 0.001 0.003 0.001 3 0 10 "ROT" 0 true
       false) 10
  = [0.003; 0.002; 0.001; 0.001; 0.001; 0.001; 0.001; 0.001; 0.002;
     0.003]%float.
Proof. vm_compute. reflexivity. Qed.

(** The quotient of the constructor is rounded before it is truncated:
    with pauses from 0.1 to 0.7 in steps of 0.1 it is
    5.9999999999999991, and the driver gets six speed levels. *)
Example init_six_intervals :
  ((0.7 - 0.1) / 0.1 = 5.9999999999999991)%float
  /\ exists d : AxisDriver,
       init [3; 5; 7]%Z [0.1; 0.1; 0.7; 0.1]%float [0; 10]%float "ROT" = Ok d
       /\ step_intervals d = 6%Z
       /\ _create_steps_list d 12
          = [0.7; 0.6; 0.49999999999999994; 0.39999999999999991;
             0.29999999999999993; 0.19999999999999996;
             0.1; 0.2; 0.30000000000000004; 0.4; 0.5; 0.6]%float.
Proof.
  split; [vm_compute; reflexivity |].
  eexists. split; [vm_compute; reflexivity |].
  split; vm_compute; reflexivity.
Qed.

(** A pause of the acceleration leg is a rounded difference and can fall
    below [min_step]. *)
Example create_steps_list_below_min_step :
  exists d : AxisDriver,
    init [3; 5; 7]%Z [0.1; 0.0001; 0.0004; 0.0001]%float [0; 10]%float "ROT"
    = Ok d
    /\ valid_config d
    /\ step_intervals d = 4%Z
    /\ nth 3 (_create_steps_list d 8) 0%float = 9.9999999999999991e-05%float
    /\ (nth 3 (_create_steps_list d 8) 0 <? min_step d)%float = true.
Proof.
  eexists. split; [vm_compute; reflexivity |].
  split; [constructor; vm_compute; reflexivity |].
  repeat split; vm_compute; reflexivity.
Qed.

(** Outside the documented domain ([max_step] below [min_step]) the
    constructor computes a negative number of speed levels, and an empty
    request is then planned as a cruise. *)
Example create_steps_list_negative_intervals :
  exists d : AxisDriver,
    init [3; 5; 7]%Z [0.1; 0.005; 0.001; 0.001]%float [0; 10]%float "ROT"
    = Ok d
    /\ step_intervals d = (-3)%Z
    /\ _create_steps_list d 0 = repeat 0.005%float 6.
Proof.
  eexists. split; [vm_compute; reflexivity |].
  split; vm_compute; reflexivity.
Qed.

Lemma py_div_Ok (a b q : float) :
  py_div a b = Ok q -> (b =? 0)%float = false /\ q = (a / b)%float.
Proof.
  unfold py_div. destruct (b =? 0)%float; [discriminate |].
  intros H. injection H as <-. split; reflexivity.
Qed.

Lemma py_div_Raise (a b : float) (e : exn) :
  py_div a b = Raise e -> (b =? 0)%float = true /\ e = ZeroDivisionError.
Proof.
  unfold py_div. destruct (b =? 0)%float; [| discriminate].
  intros H. injection H as <-. split; reflexivity.
Qed.

(** Case analysis on the steps of the constructor. *)
Ltac init_cases H :=
  unfold init, result_bind in H;
  repeat match type of H with
         | match ?x with _ => _ end = _ =>
             destruct x eqn:?; try discriminate H
         | (if ?x then _ else _) = _ =>
             destruct x eqn:?; try discriminate H
         end.

(** What the constructor stores in [step_intervals]. *)
Lemma init_step_intervals (pin_values : list Z)
  (step_values coord_values : list float) (ty : string) (d : AxisDriver) :
  init pin_values step_values coord_values ty = Ok d ->
  py_int ((max_step d - min_step d) / delta_step d)
  = Ok (step_intervals d - 1)%Z.
Proof.
  intros H. init_cases H;
    injection H as <-; cbn [max_step min_step delta_step step_intervals];
    match goal with
    | D : py_div _ _ = Ok _, E : py_int _ = Ok _ |- _ =>
        apply py_div_Ok in D; destruct D as [_ ->]; rewrite E; f_equal; lia
    end.
Qed.

(** C1: for a configuration in the documented timing domain, [I =
    step_intervals] is what the constructor computes,
    [int ((max_step - min_step) / delta_step) + 1] in double arithmetic;
    the quotient is not negative, so that [int] takes its floor, and [I]
    is at least 1.  For every non-negative pulse count [n] the plan is:
    empty for [n = 0]; [n] copies of [max_step] for [0 < n < 2 I]; for
    [n = 2 I] the acceleration leg [max_step - i * delta_step],
    [i = 0 .. I-1], followed by the deceleration leg
    [min_step + i * delta_step], [i = 0 .. I-1], each pause computed in
    doubles as written; for [n > 2 I] the acceleration leg, [n - 2 I]
    copies of [min_step] and the deceleration leg.  The plan is a function
    of [n] and the configuration attributes only. *)
Theorem create_steps_list_spec (d : AxisDriver) (n : Z) :
  (min_step d <=? max_step d)%float = true ->
  (0 <? delta_step d)%float = true ->
  py_int ((max_step d - min_step d) / delta_step d)
  = Ok (step_intervals d - 1)%Z ->
  (0 <= n)%Z ->
  let I := step_intervals d in
  let accel :=
    map (fun i : nat =>
           (max_step d - float_of_int (Z.of_nat i) * delta_step d)%float)
        (seq 0 (Z.to_nat I)) in
  let decel :=
    map (fun i : nat =>
           (min_step d + float_of_int (Z.of_nat i) * delta_step d)%float)
        (seq 0 (Z.to_nat I)) in
  not_negative ((max_step d - min_step d) / delta_step d)
  /\ (1 <= I)%Z
  /\ (n = 0%Z -> _create_steps_list d n = [])
  /\ ((0 < n < 2 * I)%Z ->
      _create_steps_list d n = repeat (max_step d) (Z.to_nat n))
  /\ (n = (2 * I)%Z -> _create_steps_list d n = accel ++ decel)
  /\ ((n > 2 * I)%Z ->
      _create_steps_list d n
      = accel ++ repeat (min_step d) (Z.to_nat (n - 2 * I)) ++ decel)
  /\ (forall d' : AxisDriver,
        min_step d' = min_step d -> max_step d' = max_step d ->
        delta_step d' = delta_step d ->
        step_intervals d' = step_intervals d ->
        _create_steps_list d' n = _create_steps_list d n).
Proof.
  intros Hmm Hd HI Hn I accel decel.
  destruct (step_intervals_positive _ _ _ _ Hmm Hd HI) as [Hq Hpos].
  split; [exact Hq |]. split; [subst I; lia |].
  assert (Hpure : forall d' : AxisDriver,
             min_step d' = min_step d -> max_step d' = max_step d ->
             delta_step d' = delta_step d ->
             step_intervals d' = step_intervals d ->
             _create_steps_list d' n = _create_steps_list d n).
  { intros d' E1 E2 E3 E4. unfold _create_steps_list.
    now rewrite E1, E2, E3, E4. }
  refine (conj _ (conj _ (conj _ (conj _ Hpure)))); clear Hpure;
    unfold _create_steps_list; fold I; subst accel decel;
    rewrite !py_range_const; unfold py_range; rewrite !map_map.
  - intros ->. subst I.
    destruct (Z.ltb_spec 0 (2 * step_intervals d)); [| lia].
    change (0 >? 0)%Z with false. cbn [andb].
    destruct (Z.eqb_spec 0 (2 * step_intervals d)); [lia |].
    destruct (Z.gtb_spec 0 (2 * step_intervals d)); [lia |].
    reflexivity.
  - intros [H1 H2].
    destruct (Z.ltb_spec n (2 * I)); [| lia].
    destruct (Z.gtb_spec n 0); [| lia]. reflexivity.
  - intros ->.
    destruct (Z.ltb_spec (2 * I) (2 * I)); [lia |].
    cbn [andb]. rewrite Z.eqb_refl. reflexivity.
  - intros H.
    destruct (Z.ltb_spec n (2 * I)); [lia |]. cbn [andb].
    destruct (Z.eqb_spec n (2 * I)); [lia |].
    destruct (Z.gtb_spec n (2 * I)); [| lia]. reflexivity.
Qed.

(** ** The homing loop *)

Lemma idle_passes_app (p : float) (j k : nat) :
  idle_passes p (j + k) = idle_passes p j ++ idle_passes p k.
Proof.
  induction j as [| j IH]; [reflexivity |].
  cbn [Nat.add idle_passes app]. now rewrite IH.
Qed.

Lemma after_pulses_more (d : AxisDriver) (w : World) (j k : nat) :
  after_pulses d (snd (after_pulses d w j)) k = after_pulses d w (j + k).
Proof.
  unfold after_pulses. cbn [snd].
  now rewrite <- app_assoc, idle_passes_app.
Qed.

Lemma after_pulses_0 (d : AxisDriver) (w : World) : after_pulses d w 0 = (d, w).
Proof. unfold after_pulses. cbn [idle_passes]. now rewrite app_nil_r. Qed.

Lemma samples_after_step (w : World) (dir : bool) (p : float) :
  samples (w ++ [Step dir p]) = samples w.
Proof. rewrite samples_app. cbn. lia. Qed.

(** A pass on an axis with an endstop, when [time.sleep] accepts
    [max_step]: one call of [step], one sample, then the budget test. *)
Lemma homing_body_run (sensor : nat -> bool) (ms : float) (e : Z)
  (d : AxisDriver) (w : World) (pin : Z) :
  endstop_interface d = Some pin ->
  time_sleep (max_step d) = Ok tt ->
  homing_body sensor ms e (d, w)
  = (if py_int_eq_float (e + 1) ms
     then Raise (AxisException max_steps_message)
     else Ok (sensor (samples w)),
     (d, w ++ [Step false (max_step d); Sample (sensor (samples w))])).
Proof.
  intros He Hp. unfold homing_body, bind, get_driver. cbn [fst snd].
  rewrite stepper_step_run, Hp.
  unfold endstop_sample, raise, ret. cbn [fst snd].
  rewrite He, samples_after_step, <- app_assoc. cbn [app].
  now destruct (py_int_eq_float (e + 1) ms).
Qed.

Lemma homing_body_no_endstop (sensor : nat -> bool) (ms : float) (e : Z)
  (d : AxisDriver) (w : World) :
  endstop_interface d = None ->
  time_sleep (max_step d) = Ok tt ->
  homing_body sensor ms e (d, w)
  = (Raise AttributeError, (d, w ++ [Step false (max_step d)])).
Proof.
  intros He Hp. unfold homing_body, bind, get_driver. cbn [fst snd].
  rewrite stepper_step_run, Hp.
  unfold endstop_sample. cbn [fst snd]. now rewrite He.
Qed.

Lemma homing_body_sleep_raise (sensor : nat -> bool) (ms : float) (e : Z)
  (d : AxisDriver) (w : World) (ex : exn) :
  time_sleep (max_step d) = Raise ex ->
  homing_body sensor ms e (d, w)
  = (Raise ex, (d, w ++ [Step false (max_step d)])).
Proof.
  intros Hp. unfold homing_body, bind, get_driver. cbn [fst snd].
  now rewrite stepper_step_run, Hp.
Qed.

(** The three ways a pass can go. *)
Lemma homing_body_cases (sensor : nat -> bool) (ms : float) (e : Z)
  (d : AxisDriver) (w : World) :
  (exists ex : exn,
      time_sleep (max_step d) = Raise ex
      /\ homing_body sensor ms e (d, w)
         = (Raise ex, (d, w ++ [Step false (max_step d)])))
  \/ (time_sleep (max_step d) = Ok tt
      /\ endstop_interface d = None
      /\ homing_body sensor ms e (d, w)
         = (Raise AttributeError, (d, w ++ [Step false (max_step d)])))
  \/ (time_sleep (max_step d) = Ok tt
      /\ (exists pin : Z, endstop_interface d = Some pin)
      /\ homing_body sensor ms e (d, w)
         = (if py_int_eq_float (e + 1) ms
            then Raise (AxisException max_steps_message)
            else Ok (sensor (samples w)),
            (d, w ++ [Step false (max_step d);
                      Sample (sensor (samples w))]))).
Proof.
  destruct (time_sleep (max_step d)) as [[] | ex] eqn:Hp.
  - destruct (endstop_interface d) as [pin |] eqn:He.
    + right. right. split; [reflexivity |]. split; [eauto |].
      now apply (homing_body_run _ _ _ _ _ pin).
    + right. left. split; [reflexivity |]. split; [reflexivity |].
      now apply homing_body_no_endstop.
  - left. exists ex. split; [reflexivity |].
    now apply homing_body_sleep_raise.
Qed.

(** No pass of the loop writes an attribute of the driver, and every pass
    makes one call of [step]. *)
Lemma homing_body_driver (sensor : nat -> bool) (ms : float) (e : Z)
  (s : State) :
  fst (snd (homing_body sensor ms e s)) = fst s.
Proof.
  destruct s as [d w].
  destruct (homing_body_cases sensor ms e d w)
    as [(ex & _ & ->) | [(_ & _ & ->) | (_ & _ & ->)]]; reflexivity.
Qed.

Lemma homing_body_steps (sensor : nat -> bool) (ms : float) (e : Z)
  (d : AxisDriver) (w : World) :
  steps (snd (snd (homing_body sensor ms e (d, w))))
  = steps w ++ [(false, max_step d)].
Proof.
  destruct (homing_body_cases sensor ms e d w)
    as [(ex & _ & ->) | [(_ & _ & ->) | (_ & _ & ->)]];
    cbn [snd]; rewrite steps_app; reflexivity.
Qed.

Section HomingLoop.

Variables (sensor : nat -> bool) (ms : float).

(** A pass goes round again exactly when [time.sleep] accepts [max_step],
    there is an endstop, it is read not pressed, and the counter does not
    meet [max_steps]. *)
Lemma homing_body_again (e : Z) (d : AxisDriver) (w : World) (s' : State) :
  homing_body sensor ms e (d, w) = (Ok false, s') <->
  time_sleep (max_step d) = Ok tt
  /\ (exists pin : Z, endstop_interface d = Some pin)
  /\ sensor (samples w) = false
  /\ py_int_eq_float (e + 1) ms = false
  /\ s' = after_pulses d w 1.
Proof.
  destruct (homing_body_cases sensor ms e d w)
    as [(ex & Hp & ->) | [(Hp & He & ->) | (Hp & (pin & He) & ->)]].
  - split; [discriminate |]. intros (C & _). congruence.
  - split; [discriminate |]. intros (_ & (pin & C) & _). congruence.
  - destruct (py_int_eq_float (e + 1) ms) eqn:Eq.
    + split; [discriminate | intros (_ & _ & _ & C & _); discriminate].
    + split.
      * intros H. injection H as Hs <-. rewrite Hs.
        repeat split; eauto.
      * intros (_ & _ & Hs & _ & ->). rewrite Hs. reflexivity.
Qed.

(** [k] passes go by exactly when [time.sleep] accepts [max_step], the
    first [k] samples are not pressed and the counter does not meet
    [max_steps] on any of them; they leave [k] calls of [step] behind,
    each followed by a sample. *)
Lemma homing_in_flight_iff (k : nat) :
  forall (e : Z) (d : AxisDriver) (w : World) (s' : State),
    (0 < k)%nat ->
    homing_in_flight k sensor ms e (d, w) = Some s' <->
    time_sleep (max_step d) = Ok tt
    /\ (exists pin : Z, endstop_interface d = Some pin)
    /\ (forall j : nat, (j < k)%nat -> sensor (samples w + j)%nat = false)
    /\ (forall j : nat, (j < k)%nat ->
          py_int_eq_float (e + Z.of_nat j + 1) ms = false)
    /\ s' = after_pulses d w k.
Proof.
  induction k as [| k IH]; intros e d w s' Hk; [lia |].
  cbn [homing_in_flight].
  destruct (homing_body sensor ms e (d, w)) as [r s1] eqn:Eb.
  destruct (Nat.eq_dec k 0) as [-> | Hk0].
  - (* one pass *)
    cbn [homing_in_flight]. split.
    + intros H. destruct r as [[|] |]; try discriminate.
      injection H as <-. apply homing_body_again in Eb.
      destruct Eb as (Hsl & Hp & Hs & Hm & ->).
      repeat split; try assumption.
      * intros j Hj. assert (j = 0%nat) as -> by lia.
        now rewrite Nat.add_0_r.
      * intros j Hj. assert (j = 0%nat) as -> by lia.
        now rewrite Z.add_0_r.
    + intros (Hsl & Hp & Hs & Hm & ->).
      assert (Eb' : homing_body sensor ms e (d, w)
                    = (Ok false, after_pulses d w 1)).
      { apply homing_body_again. repeat split; try assumption.
        - rewrite <- (Nat.add_0_r (samples w)). apply Hs. lia.
        - rewrite <- (Z.add_0_r e). apply (Hm 0%nat). lia. }
      rewrite Eb' in Eb. now injection Eb as <- <-.
  - (* a pass, then [k] more *)
    split.
    + intros H. destruct r as [[|] |]; try discriminate.
      apply homing_body_again in Eb.
      destruct Eb as (Hsl & Hp & Hs & Hm & ->).
      apply IH in H; [| lia].
      destruct H as (_ & _ & Hs' & Hm' & ->).
      rewrite samples_app, samples_idle_passes in Hs'.
      repeat split; try assumption.
      * intros j Hj. destruct j as [| j]; [now rewrite Nat.add_0_r |].
        replace (samples w + S j)%nat with (samples w + 1 + j)%nat by lia.
        apply Hs'. lia.
      * intros j Hj. destruct j as [| j]; [now rewrite Z.add_0_r |].
        replace (e + Z.of_nat (S j) + 1)%Z with (e + 1 + Z.of_nat j + 1)%Z
          by lia.
        apply Hm'. lia.
      * apply (after_pulses_more d w 1 k).
    + intros (Hsl & Hp & Hs & Hm & ->).
      assert (Eb' : homing_body sensor ms e (d, w)
                    = (Ok false, after_pulses d w 1)).
      { apply homing_body_again. repeat split; try assumption.
        - rewrite <- (Nat.add_0_r (samples w)). apply Hs. lia.
        - rewrite <- (Z.add_0_r e). apply (Hm 0%nat). lia. }
      rewrite Eb' in Eb. injection Eb as <- <-.
      apply IH; [lia |].
      rewrite samples_app, samples_idle_passes.
      repeat split; try assumption.
      * intros j Hj.
        replace (samples w + 1 + j)%nat with (samples w + S j)%nat by lia.
        apply Hs. lia.
      * intros j Hj.
        replace (e + 1 + Z.of_nat j + 1)%Z with (e + Z.of_nat (S j) + 1)%Z
          by lia.
        apply Hm. lia.
      * symmetry. apply (after_pulses_more d w 1 k).
Qed.

(** In flight the state is the one at the call plus [k] fruitless
    passes. *)
Lemma homing_in_flight_shape (k : nat) (e : Z) (d : AxisDriver) (w : World)
  (s' : State) :
  homing_in_flight k sensor ms e (d, w) = Some s' -> s' = after_pulses d w k.
Proof.
  destruct k as [| k].
  - cbn. intros H. injection H as <-. symmetry. apply after_pulses_0.
  - intros H. apply homing_in_flight_iff in H; [| lia]. tauto.
Qed.

Lemma homing_in_flight_driver (k : nat) (e : Z) (s s' : State) :
  homing_in_flight k sensor ms e s = Some s' -> fst s' = fst s.
Proof.
  destruct s as [d w]. intros H. apply homing_in_flight_shape in H.
  now subst s'.
Qed.

(** [homing_in_flight] is a prefix of the loop: from the state it gives
    after [k] passes, the loop goes on as it would have from the start. *)
Lemma homing_in_flight_prefix (k : nat) :
  forall (fuel : nat) (e : Z) (s s' : State),
    homing_in_flight k sensor ms e s = Some s' ->
    homing_loop (k + fuel) sensor ms e s
    = homing_loop fuel sensor ms (e + Z.of_nat k) s'.
Proof.
  induction k as [| k IH]; intros fuel e s s' H; cbn [homing_in_flight] in H.
  - injection H as <-. now rewrite Z.add_0_r.
  - cbn [Nat.add homing_loop].
    destruct (homing_body sensor ms e s) as [[[|] | ex] s1];
      try discriminate.
    rewrite (IH fuel _ _ _ H). f_equal. lia.
Qed.

(** Conversely a loop that ends does so on the pass after some prefix. *)
Lemma homing_loop_last_pass (fuel : nat) :
  forall (e : Z) (s : State) (r : result unit) (s' : State),
    homing_loop fuel sensor ms e s = Some (r, s') ->
    exists (k : nat) (sk : State),
      (k < fuel)%nat
      /\ homing_in_flight k sensor ms e s = Some sk
      /\ ((r = Ok tt
           /\ homing_body sensor ms (e + Z.of_nat k) sk = (Ok true, s'))
          \/ (exists ex : exn,
                r = Raise ex
                /\ homing_body sensor ms (e + Z.of_nat k) sk
                   = (Raise ex, s'))).
Proof.
  induction fuel as [| fuel IH]; intros e s r s' H; [discriminate |].
  cbn [homing_loop] in H.
  destruct (homing_body sensor ms e s) as [[[|] | ex] s1] eqn:Eb.
  - injection H as <- <-. exists 0%nat, s.
    rewrite Z.add_0_r. repeat split; [lia | auto].
  - apply IH in H. destruct H as (k & sk & Hk & Hfl & Hlast).
    exists (S k), sk. split; [lia |]. split.
    + cbn [homing_in_flight]. now rewrite Eb.
    + replace (e + Z.of_nat (S k))%Z with (e + 1 + Z.of_nat k)%Z by lia.
      exact Hlast.
  - injection H as <- <-. exists 0%nat, s.
    rewrite Z.add_0_r. repeat split; [lia | eauto].
Qed.

Lemma homing_loop_driver (fuel : nat) (e : Z) (s : State) (r : result unit)
  (s' : State) :
  homing_loop fuel sensor ms e s = Some (r, s') -> fst s' = fst s.
Proof.
  intros H. apply homing_loop_last_pass in H.
  destruct H as (k & sk & _ & Hfl & Hlast).
  apply homing_in_flight_driver in Hfl.
  pose proof (homing_body_driver sensor ms (e + Z.of_nat k) sk) as Hd.
  destruct Hlast as [[_ Eb] | (ex & _ & Eb)]; rewrite Eb in Hd;
    cbn [fst snd] in Hd; congruence.
Qed.

(** Every successful exit of the loop: [k] fruitless passes, then a call
    of [step] and a sample that reads the sensor pressed. *)
Lemma homing_loop_ok (fuel : nat) (e : Z) (d : AxisDriver) (w : World)
  (s' : State) :
  homing_loop fuel sensor ms e (d, w) = Some (Ok tt, s') ->
  exists k : nat,
    (k < fuel)%nat
    /\ s' = (d, w ++ idle_passes (max_step d) k
                  ++ [Step false (max_step d); Sample true])
    /\ time_sleep (max_step d) = Ok tt
    /\ (forall j : nat, (j < k)%nat -> sensor (samples w + j)%nat = false)
    /\ sensor (samples w + k)%nat = true
    /\ (forall j : nat, (j <= k)%nat ->
          py_int_eq_float (e + Z.of_nat j + 1) ms = false).
Proof.
  intros H. apply homing_loop_last_pass in H.
  destruct H as (k & sk & Hk & Hfl & [[_ Eb] | (ex & C & _)]);
    [| discriminate].
  exists k. split; [exact Hk |].
  assert (Hquiet : (forall j : nat, (j < k)%nat ->
                      sensor (samples w + j)%nat = false)
                   /\ (forall j : nat, (j < k)%nat ->
                         py_int_eq_float (e + Z.of_nat j + 1) ms = false)).
  { destruct k as [| k]; [split; intros j Hj; lia |].
    apply homing_in_flight_iff in Hfl; [tauto | lia]. }
  destruct Hquiet as [Hquiet Hbudget].
  apply homing_in_flight_shape in Hfl. subst sk.
  unfold after_pulses in Eb.
  destruct (homing_body_cases sensor ms (e + Z.of_nat k) d
              (w ++ idle_passes (max_step d) k))
    as [(ex & _ & E) | [(_ & _ & E) | (Hp & _ & E)]];
    rewrite E in Eb; try discriminate Eb.
  rewrite samples_app, samples_idle_passes in Eb.
  destruct (py_int_eq_float (e + Z.of_nat k + 1) ms) eqn:Eq;
    [discriminate |].
  injection Eb as Hs <-. rewrite Hs, <- app_assoc.
  repeat split; try assumption.
  intros j Hj. destruct (Nat.eq_dec j k) as [-> | Hne]; [exact Eq |].
  apply Hbudget. lia.
Qed.

(** The last pass, after [k] passes that went round again. *)
Lemma homing_loop_after_prefix (pin : Z) (k fuel : nat) (e : Z)
  (d : AxisDriver) (w : World) :
  endstop_interface d = Some pin ->
  time_sleep (max_step d) = Ok tt ->
  (k < fuel)%nat ->
  (forall j : nat, (j < k)%nat -> sensor (samples w + j)%nat = false) ->
  (forall j : nat, (j < k)%nat ->
     py_int_eq_float (e + Z.of_nat j + 1) ms = false) ->
  homing_loop fuel sensor ms e (d, w)
  = let w' := w ++ idle_passes (max_step d) k
                ++ [Step false (max_step d);
                    Sample (sensor (samples w + k)%nat)] in
    if py_int_eq_float (e + Z.of_nat k + 1) ms
    then Some (Raise (AxisException max_steps_message), (d, w'))
    else if sensor (samples w + k)%nat
         then Some (Ok tt, (d, w'))
         else homing_loop (fuel - S k) sensor ms (e + Z.of_nat (S k))
                (d, w').
Proof.
  intros He Hp Hk Hs Hm.
  assert (Hfl : homing_in_flight k sensor ms e (d, w)
                = Some (after_pulses d w k)).
  { destruct k as [| k]; [cbn; now rewrite after_pulses_0 |].
    apply homing_in_flight_iff; [lia |]. eauto 8. }
  replace fuel with (k + S (fuel - S k))%nat at 1 by lia.
  rewrite (homing_in_flight_prefix k _ _ _ _ Hfl). cbn [homing_loop].
  unfold after_pulses.
  rewrite (homing_body_run _ _ _ _ _ pin He Hp).
  rewrite samples_app, samples_idle_passes, <- app_assoc. cbv zeta.
  destruct (py_int_eq_float (e + Z.of_nat k + 1) ms); [reflexivity |].
  destruct (sensor (samples w + k)%nat); [reflexivity |].
  f_equal. lia.
Qed.

End HomingLoop.

(** ** [homing] *)

Lemma homing_rot (fuel : nat) (sensor : nat -> bool) (d : AxisDriver)
  (w : World) :
  axis_type d = "ROT"%string ->
  homing fuel sensor (d, w) = Some (Ok tt, (homed d, w)).
Proof.
  intros Ht. unfold homing. cbn [fst snd]. now rewrite Ht.
Qed.

Lemma homing_lin (fuel : nat) (sensor : nat -> bool) (d : AxisDriver)
  (w : World) :
  axis_type d <> "ROT"%string ->
  homing fuel sensor (d, w)
  = match py_div (max_coord d - min_coord d) (step_size d) with
    | Raise e => Some (Raise e, (d, w))
    | Ok max_steps =>
        match homing_loop fuel sensor max_steps 0 (d, w) with
        | None => None
        | Some (Raise e, s') => Some (Raise e, s')
        | Some (Ok _, s') => Some (Ok tt, (homed (fst s'), snd s'))
        end
    end.
Proof.
  intros Ht. apply String.eqb_neq in Ht.
  unfold homing. cbn [fst snd]. now rewrite Ht.
Qed.

(** A linear homing that finds the sensor first pressed on sample
    [k + 1], before the counter has met [max_steps]. *)
Lemma homing_run_success (sensor : nat -> bool) (d : AxisDriver) (w : World)
  (pin : Z) (k : nat) (max_steps : float) :
  axis_type d <> "ROT"%string ->
  endstop_interface d = Some pin ->
  time_sleep (max_step d) = Ok tt ->
  py_div (max_coord d - min_coord d) (step_size d) = Ok max_steps ->
  (forall j : nat, (j < k)%nat -> sensor (samples w + j)%nat = false) ->
  sensor (samples w + k)%nat = true ->
  (forall j : nat, (j <= k)%nat ->
     py_int_eq_float (Z.of_nat j + 1) max_steps = false) ->
  forall fuel : nat, (k < fuel)%nat ->
    homing fuel sensor (d, w)
    = Some (Ok tt,
            (homed d,
             w ++ idle_passes (max_step d) k
               ++ [Step false (max_step d); Sample true])).
Proof.
  intros Ht He Hp Hdiv Hfalse Htrue Hms fuel Hf.
  rewrite (homing_lin _ _ _ _ Ht), Hdiv.
  rewrite (homing_loop_after_prefix sensor _ pin k fuel 0 d w He Hp Hf
             Hfalse).
  - cbv zeta. rewrite Z.add_0_l, (Hms k (Nat.le_refl k)), Htrue.
    reflexivity.
  - intros j Hj. rewrite Z.add_0_l. apply Hms. lia.
Qed.

(** C6: a successful [homing] sets [current_coord] to [min_coord] and
    [homing_done] to true and writes nothing else.  On a rotational axis it
    always succeeds at once, with no call on the hardware.  On any other
    axis the hardware calls of a success are [k + 1] times
    [step(False, max_step)], each followed by one sample of the endstop,
    the first [k] samples not pressed and the last one pressed; in flight,
    after [k] passes of the loop, they are [k] such pairs; and whenever
    [time.sleep] accepts [max_step], the sensor is first pressed on sample
    [k + 1] and the pulse counter has not met [max_steps] by then, the call
    does succeed in this way. *)
Theorem homing_success (sensor : nat -> bool) (d : AxisDriver) (w : World) :
  (axis_type d = "ROT"%string ->
   forall fuel : nat,
     homing fuel sensor (d, w) = Some (Ok tt, (homed d, w)))
  /\ (forall (fuel : nat) (d' : AxisDriver) (w' : World),
        homing fuel sensor (d, w) = Some (Ok tt, (d', w')) ->
        d' = homed d
        /\ current_coord d' = min_coord d
        /\ homing_done d' = true
        /\ (axis_type d <> "ROT"%string ->
            exists k : nat,
              w' = w ++ idle_passes (max_step d) k
                     ++ [Step false (max_step d); Sample true]
              /\ (forall j : nat, (j < k)%nat ->
                    sensor (samples w + j)%nat = false)
              /\ sensor (samples w + k)%nat = true))
  /\ (forall (k : nat) (max_steps : float) (s' : State),
        homing_in_flight k sensor max_steps 0 (d, w) = Some s' ->
        s' = (d, w ++ idle_passes (max_step d) k))
  /\ (forall (pin : Z) (k : nat) (max_steps : float),
        axis_type d <> "ROT"%string ->
        endstop_interface d = Some pin ->
        time_sleep (max_step d) = Ok tt ->
        py_div (max_coord d - min_coord d) (step_size d) = Ok max_steps ->
        (forall j : nat, (j < k)%nat -> sensor (samples w + j)%nat = false) ->
        sensor (samples w + k)%nat = true ->
        (forall j : nat, (j <= k)%nat ->
           py_int_eq_float (Z.of_nat j + 1) max_steps = false) ->
        forall fuel : nat, (k < fuel)%nat ->
          homing fuel sensor (d, w)
          = Some (Ok tt,
                  (homed d,
                   w ++ idle_passes (max_step d) k
                     ++ [Step false (max_step d); Sample true]))).
Proof.
  split; [| split; [| split]].
  - intros Ht fuel. now apply homing_rot.
  - intros fuel d' w' H.
    destruct (String.eqb_spec (axis_type d) "ROT") as [Ht | Ht].
    + rewrite (homing_rot _ _ _ _ Ht) in H. injection H as <- <-.
      repeat split. intros C. contradiction.
    + rewrite (homing_lin _ _ _ _ Ht) in H.
      destruct (py_div (max_coord d - min_coord d) (step_size d))
        as [ms | e]; [| discriminate].
      destruct (homing_loop fuel sensor ms 0 (d, w))
        as [[[[] | e] s'] |] eqn:El; [| discriminate | discriminate].
      apply homing_loop_ok in El.
      destruct El as (k & _ & -> & _ & Hfalse & Htrue & _).
      cbn [fst snd] in H. injection H as <- <-.
      repeat split. intros _. exists k. auto.
  - intros k ms s' H. exact (homing_in_flight_shape _ _ _ _ _ _ _ H).
  - intros pin k ms. apply homing_run_success.
Qed.

(** ** The step budget of linear homing *)

(** The budget stops the loop when the quotient
    [(max_coord - min_coord) / step_size], as rounded, is a whole number
    of steps, at least one. *)
Lemma homing_budget_integral (sensor : nat -> bool) (d : AxisDriver)
  (w : World) (pin : Z) (N : nat) (max_steps : float) :
  axis_type d <> "ROT"%string ->
  endstop_interface d = Some pin ->
  time_sleep (max_step d) = Ok tt ->
  py_div (max_coord d - min_coord d) (step_size d) = Ok max_steps ->
  py_int_eq_float (Z.of_nat (S N)) max_steps = true ->
  (forall j : nat, (j < N)%nat ->
     py_int_eq_float (Z.of_nat (S j)) max_steps = false) ->
  (forall j : nat, (j < N)%nat -> sensor (samples w + j)%nat = false) ->
  forall fuel : nat, (N < fuel)%nat ->
    homing fuel sensor (d, w)
    = Some (Raise (AxisException max_steps_message),
            (d, w ++ idle_passes (max_step d) N
                  ++ [Step false (max_step d);
                      Sample (sensor (samples w + N)%nat)])).
Proof.
  intros Ht He Hp Hdiv Hq Hlt Hfalse fuel Hf.
  rewrite (homing_lin _ _ _ _ Ht), Hdiv.
  rewrite (homing_loop_after_prefix sensor _ pin N fuel 0 d w He Hp Hf
             Hfalse).
  - cbv zeta. rewrite Z.add_0_l.
    replace (Z.of_nat N + 1)%Z with (Z.of_nat (S N)) by lia.
    now rewrite Hq.
  - intros j Hj. rewrite Z.add_0_l.
    replace (Z.of_nat j + 1)%Z with (Z.of_nat (S j)) by lia.
    now apply Hlt.
Qed.

(** When the counter can never be equal to [max_steps] and the sensor is
    never read pressed, the loop does not end, and it goes on issuing
    pulses. *)
Section NeverPressed.

Variables (sensor : nat -> bool) (ms : float) (pin : Z) (d : AxisDriver).
Variable e0 : Z.

Hypothesis endstop_present : endstop_interface d = Some pin.
Hypothesis sleep_accepts : time_sleep (max_step d) = Ok tt.
Hypothesis never_pressed : forall i : nat, sensor i = false.
Hypothesis never_met :
  forall z : Z, (e0 < z)%Z -> py_int_eq_float z ms = false.

Lemma homing_in_flight_never (k : nat) (e : Z) (w : World) :
  (e0 <= e)%Z ->
  homing_in_flight k sensor ms e (d, w) = Some (after_pulses d w k).
Proof.
  intros Hle. destruct k as [| k]; [cbn; now rewrite after_pulses_0 |].
  apply homing_in_flight_iff; [lia |].
  split; [exact sleep_accepts |].
  split; [eauto |]. split; [intros j _; apply never_pressed |].
  split; [| reflexivity].
  intros j _. apply never_met. lia.
Qed.

Lemma homing_loop_never (fuel : nat) (e : Z) (w : World) :
  (e0 <= e)%Z -> homing_loop fuel sensor ms e (d, w) = None.
Proof.
  intros Hle. rewrite <- (Nat.add_0_r fuel).
  now rewrite (homing_in_flight_prefix sensor ms fuel 0 e _ _
                 (homing_in_flight_never fuel e w Hle)).
Qed.

End NeverPressed.

(** A float that is not a whole number is equal to no int. *)
Lemma py_int_eq_float_fraction (x : float) (i : Z) :
  float_is_integer x = false -> py_int_eq_float i x = false.
Proof.
  unfold float_is_integer, py_int_eq_float.
  destruct (Prim2SF x) as [s | s | | s m e]; try discriminate;
    try reflexivity.
  intros ->. reflexivity.
Qed.

(** C2 (the code departs from the claim): a linear axis built with
    [min_coord = 0], [max_coord = 1], [step_size = 0.3] has the budget
    [floor (1 / 0.3) = 3], but [homing] compares its pulse counter with the
    quotient [1 / 0.3 = 3.3333333333333335] itself.  With a sensor that is
    never pressed the call has not ended after any number of passes of the
    loop, and after [k] passes it has made [k] calls of [step], each
    followed by a sample, for every [k]. *)
Theorem homing_fractional_budget_runs_on :
  init [3; 5; 7]%Z [0.3; 0.001; 0.003; 0.001]%float [0; 1]%float "LIN"
  = Ok lin_driver
  /\ py_int ((max_coord lin_driver - min_coord lin_driver)
             / step_size lin_driver) = Ok 3%Z
  /\ (forall fuel : nat,
        homing fuel never_triggered (lin_driver, world0) = None)
  /\ (forall k : nat,
        homing_in_flight k never_triggered
          ((max_coord lin_driver - min_coord lin_driver)
           / step_size lin_driver) 0 (lin_driver, world0)
        = Some (lin_driver, idle_passes 0.003 k)).
Proof.
  assert (Hms : forall z : Z, (0 < z)%Z ->
            py_int_eq_float z
              ((max_coord lin_driver - min_coord lin_driver)
               / step_size lin_driver) = false).
  { intros z _. apply py_int_eq_float_fraction. vm_compute. reflexivity. }
  split; [vm_compute; reflexivity |].
  split; [vm_compute; reflexivity |]. split.
  - intros fuel. rewrite homing_lin by discriminate.
    assert (Hdiv : py_div (max_coord lin_driver - min_coord lin_driver)
                     (step_size lin_driver)
                   = Ok ((max_coord lin_driver - min_coord lin_driver)
                         / step_size lin_driver)%float)
      by reflexivity.
    rewrite Hdiv.
    rewrite (homing_loop_never never_triggered _ 7 lin_driver 0);
      (reflexivity || assumption || lia).
  - intros k.
    rewrite (homing_in_flight_never never_triggered _ 7 lin_driver 0);
      (reflexivity || assumption || lia).
Qed.

(** C3 (the code departs from the claim): [homing] neither tests nor sets
    the busy flag.  On the freshly built linear axis, with the sensor
    pressed on the third sample, the flag is false at the top of every pass
    of the loop and at the end of the call.  And a [homing] call made while
    a move is in flight (flag set, one pulse issued) is not turned away: it
    drives three more pulses and rewrites the coordinate, whereas
    [move_to_coordinate] in the same state raises "Axis is busy!". *)
Theorem homing_ignores_busy :
  let sensor := pressed_at [2; 5]%nat in
  let ms := ((max_coord lin_driver - min_coord lin_driver)
             / step_size lin_driver)%float in
  exists s1 s2 s3 : State,
    homing 5 sensor (lin_driver, world0) = Some (Ok tt, s1)
    /\ List.length (steps (snd s1)) = 3%nat
    /\ (forall k : nat, (k <= 2)%nat ->
        exists s : State,
          homing_in_flight k sensor ms 0 (lin_driver, world0) = Some s
          /\ List.length (steps (snd s)) = k
          /\ busy (fst s) = false)
    /\ busy (fst s1) = false
    /\ move_in_flight 1 1 s1 = (Ok tt, s2)
    /\ busy (fst s2) = true
    /\ fst (move_to_coordinate 0 s2)
       = Raise (AxisException "Axis is busy!")
    /\ homing 5 sensor s2 = Some (Ok tt, s3)
    /\ List.length (steps (snd s3)) = (List.length (steps (snd s2)) + 3)%nat
    /\ current_coord (fst s3) = min_coord lin_driver
    /\ busy (fst s3) = true.
Proof.
  cbv zeta. eexists _, _, _.
  split; [vm_compute; reflexivity |].
  split; [reflexivity |].
  split.
  { intros k Hk.
    destruct k as [| [| [| k]]]; [| | | lia];
      (eexists; split; [vm_compute; reflexivity | split; reflexivity]). }
  split; [reflexivity |].
  split; [vm_compute; reflexivity |].
  split; [reflexivity |].
  split; [vm_compute; reflexivity |].
  split; [vm_compute; reflexivity |].
  split; [reflexivity |].
  split; reflexivity.
Qed.

(** ** Every way a move can end *)

Lemma move_to_coordinate_passes (target_coord : float) (d : AxisDriver)
  (w : World) :
  passes_checks target_coord d ->
  move_to_coordinate target_coord (d, w)
  = match py_div (abs (current_coord d - target_coord)) (step_size d) with
    | Raise e => (Raise e, (set_busy true d, w))
    | Ok ratio =>
        match py_int ratio with
        | Raise e => (Raise e, (set_busy true d, w))
        | Ok n =>
            match for_each (_create_steps_list d n)
                    (move_body
                       (_calculate_direction (current_coord d - target_coord)))
                    (set_busy true d, w) with
            | (Ok _, (d', w')) => (Ok tt, (set_busy false d', w'))
            | (Raise e, s') => (Raise e, s')
            end
        end
    end.
Proof.
  intros (Hb & Hh & Hmax & Hmin).
  run_monad. rewrite Hb. run_monad. rewrite Hh. run_monad.
  rewrite Hmax. run_monad. rewrite Hmin. run_monad.
  destruct (py_div (abs (current_coord d - target_coord)) (step_size d))
    as [ratio | e]; [| reflexivity].
  run_monad. destruct (py_int ratio) as [n | e]; [| reflexivity].
  run_monad.
  change (_create_steps_list (set_busy true d) n)
    with (_create_steps_list d n).
  destruct (for_each _ _ _) as [[[] | e] [d' w']]; reflexivity.
Qed.

(** The call ends in one of the eight ways of [move_outcome]. *)
Lemma move_to_coordinate_outcome (target_coord : float) (d : AxisDriver)
  (w : World) :
  move_outcome target_coord d w
    (fst (move_to_coordinate target_coord (d, w)))
    (snd (move_to_coordinate target_coord (d, w))).
Proof.
  destruct (move_to_coordinate_rejects target_coord d w)
    as (Hbusy & Hhome & Habove & Hbelow).
  destruct (busy d) eqn:Hb.
  { rewrite Hbusy by reflexivity. now constructor. }
  destruct (homing_done d) eqn:Hh.
  2:{ rewrite Hhome by reflexivity. now constructor. }
  destruct (max_coord d <? target_coord)%float eqn:Hmax.
  { rewrite Habove by reflexivity. now constructor. }
  destruct (target_coord <? min_coord d)%float eqn:Hmin.
  { rewrite Hbelow by reflexivity. now constructor. }
  assert (Hp : passes_checks target_coord d) by (repeat split; assumption).
  rewrite (move_to_coordinate_passes _ _ _ Hp).
  destruct (py_div (abs (current_coord d - target_coord)) (step_size d))
    as [ratio | e] eqn:Hdiv.
  2:{ apply py_div_Raise in Hdiv. destruct Hdiv as [Hz ->].
      now constructor. }
  apply py_div_Ok in Hdiv. destruct Hdiv as [Hz ->].
  destruct (py_int (abs (current_coord d - target_coord) / step_size d))
    as [n | e] eqn:Hint.
  2:{ now constructor. }
  destruct (first_refused (_create_steps_list d n))
    as [Hall | (done & rest & p & e & Hplan & Hdone & Hraise)].
  - rewrite (for_each_move_body _ _ Hall). cbn [fst snd].
    replace (set_busy false (set_current_coord _ (set_busy true d)))
      with (set_current_coord
              (walk (_calculate_direction (current_coord d - target_coord))
                 (List.length (_create_steps_list d n))
                 (current_coord d) (step_size d)) d)
      by (destruct d; cbn in Hb |- *; now subst).
    now apply (move_done target_coord d w n).
  - rewrite Hplan.
    rewrite (for_each_move_body_raise _ _ _ _ _ Hdone Hraise). cbn [fst snd].
    now apply (move_sleep_raises target_coord d w n done rest p e).
Qed.

(** What every move leaves alone: the configuration, [homing_done], and
    the samples of the endstop. *)
Lemma move_outcome_frame (target_coord : float) (d : AxisDriver) (w : World)
  (r : result unit) (s' : State) :
  move_outcome target_coord d w r s' ->
  same_config d (fst s') /\ homing_done (fst s') = homing_done d
  /\ samples (snd s') = samples w
  /\ (homing_done d = false -> s' = (d, w)).
Proof.
  intros H. destruct H; cbn [fst snd];
    rewrite ?samples_app, ?samples_map_Step, ?Nat.add_0_r;
    repeat split; try reflexivity;
    try (intros C; congruence);
    match goal with
    | P : passes_checks _ _ |- _ => destruct P as (_ & ? & _); congruence
    end.
Qed.

(** ** Every way a homing can end *)

(** [homing] writes [current_coord] and [homing_done] when it succeeds, and
    nothing when it raises. *)
Lemma homing_cases (fuel : nat) (sensor : nat -> bool) (d : AxisDriver)
  (w : World) (r : result unit) (s' : State) :
  homing fuel sensor (d, w) = Some (r, s') ->
  (r = Ok tt /\ fst s' = homed d)
  \/ (exists e : exn, r = Raise e /\ fst s' = d).
Proof.
  intros H.
  destruct (String.eqb_spec (axis_type d) "ROT") as [Ht | Ht].
  - rewrite (homing_rot _ _ _ _ Ht) in H. injection H as <- <-. now left.
  - rewrite (homing_lin _ _ _ _ Ht) in H.
    destruct (py_div (max_coord d - min_coord d) (step_size d)) as [ms | e].
    2:{ injection H as <- <-. right. eauto. }
    destruct (homing_loop fuel sensor ms 0 (d, w)) as [[[[] | e] s1] |] eqn:El;
      [| | discriminate].
    + apply homing_loop_driver in El. cbn [fst] in El.
      injection H as <- <-. left. cbn [fst]. now rewrite El.
    + apply homing_loop_driver in El. cbn [fst] in El.
      injection H as <- <-. right. eauto.
Qed.

(** The calls of [step] that a homing makes are all [step(False,
    max_step)], whether it returns or raises. *)
Lemma homing_loop_steps (sensor : nat -> bool) (ms : float) (fuel : nat) :
  forall (e : Z) (d : AxisDriver) (w : World) (r : result unit) (s' : State),
    homing_loop fuel sensor ms e (d, w) = Some (r, s') ->
    exists k : nat, steps (snd s') = steps w ++ repeat (false, max_step d) k.
Proof.
  induction fuel as [| fuel IH]; intros e d w r s' H; [discriminate |].
  cbn [homing_loop] in H.
  pose proof (homing_body_steps sensor ms e d w) as Hst.
  pose proof (homing_body_driver sensor ms e (d, w)) as Hdr.
  destruct (homing_body sensor ms e (d, w)) as [[[|] | ex] [d1 w1]];
    cbn [fst snd] in Hst, Hdr; subst d1.
  - injection H as <- <-. exists 1%nat. exact Hst.
  - apply IH in H. destruct H as (k & H). exists (S k).
    rewrite H, Hst, <- app_assoc. reflexivity.
  - injection H as <- <-. exists 1%nat. exact Hst.
Qed.

Lemma homing_world (fuel : nat) (sensor : nat -> bool) (d : AxisDriver)
  (w : World) (r : result unit) (s' : State) :
  homing fuel sensor (d, w) = Some (r, s') ->
  exists k : nat, steps (snd s') = steps w ++ repeat (false, max_step d) k.
Proof.
  intros H.
  destruct (String.eqb_spec (axis_type d) "ROT") as [Ht | Ht].
  - rewrite (homing_rot _ _ _ _ Ht) in H. injection H as <- <-.
    exists 0%nat. cbn. now rewrite app_nil_r.
  - rewrite (homing_lin _ _ _ _ Ht) in H.
    destruct (py_div (max_coord d - min_coord d) (step_size d)) as [ms | e].
    2:{ injection H as <- <-. exists 0%nat. cbn. now rewrite app_nil_r. }
    destruct (homing_loop fuel sensor ms 0 (d, w)) as [[[[] | e] s1] |] eqn:El;
      [| | discriminate];
      apply homing_loop_steps in El; injection H as <- <-; exact El.
Qed.

(** ** Invariants of the states reached through the public interface *)

Lemma init_fresh (pin_values : list Z) (step_values coord_values : list float)
  (ty : string) (d : AxisDriver) :
  init pin_values step_values coord_values ty = Ok d ->
  current_coord d = (-1)%float /\ homing_done d = false /\ busy d = false
  /\ axis_type d = ty.
Proof.
  intros H. init_cases H; injection H as <-; repeat split.
Qed.

Lemma homed_same_config (d : AxisDriver) : same_config d (homed d).
Proof. unfold same_config. cbn. intuition. Qed.

Lemma reachable_same_config (sensor : nat -> bool) (d0 : AxisDriver)
  (s : State) :
  reachable sensor d0 s -> same_config d0 (fst s).
Proof.
  induction 1 as [| fuel [d w] r s' _ IH H | t [d w] r s' _ IH H].
  - apply same_config_refl.
  - cbn [fst] in IH.
    destruct (homing_cases _ _ _ _ _ _ H) as [[_ E] | (e & _ & E)];
      rewrite E; [| exact IH].
    exact (same_config_trans _ _ _ IH (homed_same_config d)).
  - cbn [fst] in IH.
    pose proof (move_to_coordinate_outcome t d w) as Ho. rewrite H in Ho.
    cbn [fst snd] in Ho. apply move_outcome_frame in Ho.
    exact (same_config_trans _ _ _ IH (proj1 Ho)).
Qed.

(** As long as homing has not succeeded nothing writes the coordinate. *)
Lemma reachable_sentinel (sensor : nat -> bool) (d0 : AxisDriver) (s : State) :
  reachable sensor d0 s ->
  homing_done (fst s) = false ->
  current_coord (fst s) = current_coord d0.
Proof.
  induction 1 as [| fuel [d w] r s' _ IH H | t [d w] r s' _ IH H];
    intros Hh.
  - reflexivity.
  - cbn [fst] in IH.
    destruct (homing_cases _ _ _ _ _ _ H) as [[_ E] | (e & _ & E)];
      rewrite E in Hh |- *; [discriminate Hh | now apply IH].
  - cbn [fst] in IH.
    pose proof (move_to_coordinate_outcome t d w) as Ho. rewrite H in Ho.
    cbn [fst snd] in Ho. apply move_outcome_frame in Ho.
    destruct Ho as (_ & Hd & _ & Hsame).
    rewrite Hh in Hd. symmetry in Hd. rewrite (Hsame Hd). cbn [fst].
    now apply IH.
Qed.

(** C9: the accessor [current_coord] is defined from construction on, and
    as long as [homing_done] is false it returns the value [-1.0] that the
    constructor stored, whatever [min_coord] and [max_coord] are. *)
Theorem current_coord_sentinel_before_homing
  (sensor : nat -> bool) (pin_values : list Z)
  (step_values coord_values : list float) (ty : string)
  (d0 : AxisDriver) (s : State) :
  init pin_values step_values coord_values ty = Ok d0 ->
  reachable sensor d0 s ->
  homing_done (fst s) = false ->
  current_coord (fst s) = (-1)%float.
Proof.
  intros Hinit Hr Hh.
  destruct (init_fresh _ _ _ _ _ Hinit) as (Hc & Hh0 & _).
  rewrite <- Hc. now apply (reachable_sentinel sensor).
Qed.

(** ** Construction *)

(** C8: the constructor raises when the direction pin is the step pin; for
    a linear axis whose other parameters let the constructor get as far as
    the sensor pin ([delta_step] not zero and a finite quotient
    [(max_step - min_step) / delta_step], which [int] turns into [q]), it
    raises when the sensor pin is the direction pin or the step pin; and
    when the three pins are pairwise different it returns a driver, not
    homed and not busy, for any axis type. *)
Theorem init_pin_checks
  (dir step sensor : Z) (ss mn mx dl cmin cmax : float) (q : Z) :
  (dir = step ->
   forall (rest : list Z) (step_values coord_values : list float)
          (ty : string),
     init (dir :: step :: rest) step_values coord_values ty
     = Raise (AxisException
                "Pins number for step and direction must be different"))
  /\ ((dl =? 0)%float = false -> py_int ((mx - mn) / dl) = Ok q ->
      dir <> step -> sensor = dir ->
      init [dir; step; sensor] [ss; mn; mx; dl] [cmin; cmax] "LIN"
      = Raise (AxisException "Direction pin number is equal to sensor pin."))
  /\ ((dl =? 0)%float = false -> py_int ((mx - mn) / dl) = Ok q ->
      dir <> step -> sensor = step ->
      init [dir; step; sensor] [ss; mn; mx; dl] [cmin; cmax] "LIN"
      = Raise (AxisException "Step pin number is equal to sensor pin."))
  /\ ((dl =? 0)%float = false -> py_int ((mx - mn) / dl) = Ok q ->
      dir <> step -> sensor <> dir -> sensor <> step ->
      forall ty : string,
      exists d : AxisDriver,
        init [dir; step; sensor] [ss; mn; mx; dl] [cmin; cmax] ty = Ok d
        /\ dir_pin d = dir /\ step_pin d = step
        /\ (ty = "LIN"%string -> endstop_interface d = Some sensor)
        /\ step_intervals d = (q + 1)%Z
        /\ homing_done d = false /\ busy d = false).
Proof.
  assert (Hne : forall a b : Z, a <> b -> (a =? b)%Z = false)
    by (intros a b; apply Z.eqb_neq).
  repeat split.
  - intros <- rest sv cv ty. unfold init, result_bind.
    cbn [py_index nth_error]. now rewrite Z.eqb_refl.
  - intros Hdl Hq Hds ->. unfold init, result_bind, py_div.
    cbn [py_index nth_error String.eqb Ascii.eqb Bool.eqb].
    rewrite (Hne step dir) by congruence.
    rewrite Hdl, Hq. now rewrite Z.eqb_refl.
  - intros Hdl Hq Hds ->. unfold init, result_bind, py_div.
    cbn [py_index nth_error String.eqb Ascii.eqb Bool.eqb].
    rewrite (Hne step dir) by congruence.
    rewrite Hdl, Hq. rewrite (Hne dir step Hds). now rewrite Z.eqb_refl.
  - intros Hdl Hq Hds Hsd Hss ty. unfold init, result_bind, py_div.
    cbn [py_index nth_error].
    rewrite (Hne step dir) by congruence.
    rewrite Hdl, Hq.
    destruct (String.eqb_spec ty "LIN") as [-> | Hty].
    + rewrite (Hne dir sensor) by congruence.
      rewrite (Hne step sensor) by congruence.
      eexists. split; [reflexivity |]. cbn. repeat split.
    + eexists. split; [reflexivity |]. cbn. repeat split.
      intros C. contradiction.
Qed.

(** With a zero [delta_step] the constructor raises before it looks at
    the sensor pin; so it does when the quotient is infinite, as with the
    smallest positive double for [delta_step]. *)
Example init_zero_delta_step :
  init [3; 5; 3]%Z [0.1; 0.001; 0.003; 0]%float [0; 1]%float "LIN"
  = Raise ZeroDivisionError.
Proof. vm_compute. reflexivity. Qed.

Example init_infinite_quotient :
  ((2 - 1) / 5e-324 = infinity)%float
  /\ init [3; 5; 3]%Z [0.1; 1; 2; 5e-324]%float [0; 1]%float "LIN"
     = Raise OverflowError.
Proof. split; vm_compute; reflexivity. Qed.

(** ** Where the code departs from the claims on a move *)

Lemma py_int_raises (x : float) (e : exn) :
  py_int x = Raise e -> e = ValueError \/ e = OverflowError.
Proof.
  unfold py_int. destruct (Prim2SF x); intros H; try discriminate H;
    injection H as <-; auto.
Qed.

Lemma time_sleep_raises (p : float) (e : exn) :
  time_sleep p = Raise e -> e = ValueError \/ e = OverflowError.
Proof.
  unfold time_sleep.
  repeat match goal with
         | |- context [if ?b then _ else _] => destruct b
         end;
    intros H; try discriminate H; injection H as <-; auto.
Qed.

(** C4 (the code departs from the claim): the rotational axis from 0 to
    1.2 with steps of 0.1 is in the documented domain.  Homed at 0 and sent
    to 1.2, it computes the quotient [1.2 / 0.1 = 11.999999999999998],
    issues 11 pulses and stops at 1.0999999999999999: the call returns with
    the axis 0.10000000000000009 away from its target, which is not less
    than [step_size]. *)
Theorem move_to_coordinate_stops_short :
  init [3; 5; 7]%Z [0.1; 0.001; 0.003; 0.001]%float [0; 1.2]%float "ROT"
  = Ok rot_driver2
  /\ valid_config rot_driver2
  /\ homing 1 never_triggered (rot_driver2, world0)
     = Some (Ok tt, (homed rot_driver2, world0))
  /\ in_range (homed rot_driver2)
  /\ passes_checks 1.2 (homed rot_driver2)
  /\ (abs (current_coord (homed rot_driver2) - 1.2)
      / step_size (homed rot_driver2) = 11.999999999999998)%float
  /\ exists (d' : AxisDriver) (w' : World),
       move_to_coordinate 1.2 (homed rot_driver2, world0) = (Ok tt, (d', w'))
       /\ List.length (steps w') = 11%nat
       /\ current_coord d' = 1.0999999999999999%float
       /\ (abs (current_coord d' - 1.2) = 0.10000000000000009)%float
       /\ (abs (current_coord d' - 1.2) <? step_size d')%float = false
       /\ (step_size d' <=? abs (current_coord d' - 1.2))%float = true.
Proof.
  split; [vm_compute; reflexivity |].
  split; [constructor; vm_compute; reflexivity |].
  split; [vm_compute; reflexivity |].
  split; [split; vm_compute; reflexivity |].
  split; [repeat split; vm_compute; reflexivity |].
  split; [vm_compute; reflexivity |].
  eexists _, _. split; [vm_compute; reflexivity |].
  repeat split; vm_compute; reflexivity.
Qed.

(** C10 (the code departs from the claim): the rotational axis from -2 to
    2 with steps of 0.1 is in the documented domain.  Homed at -2 and sent
    to 2, its upper limit, it issues 40 pulses, and the 40 rounded
    additions of 0.1 leave [current_coord] at 2.0000000000000013, above
    [max_coord] and past the target, after the last pulse and when the
    call has returned. *)
Theorem coordinate_leaves_range :
  init [3; 5; 7]%Z [0.1; 0.001; 0.003; 0.001]%float [-2; 2]%float "ROT"
  = Ok rot_driver
  /\ valid_config rot_driver
  /\ homing 1 never_triggered (rot_driver, world0) = Some (Ok tt, rot_state1)
  /\ in_range (fst rot_state1)
  /\ passes_checks 2 (fst rot_state1)
  /\ (exists (d40 : AxisDriver) (w40 : World),
        move_in_flight 40 2 rot_state1 = (Ok tt, (d40, w40))
        /\ List.length (steps w40) = 40%nat
        /\ current_coord d40 = 2.0000000000000013%float
        /\ (max_coord d40 <? current_coord d40)%float = true)
  /\ exists (d' : AxisDriver) (w' : World),
       move_to_coordinate 2 rot_state1 = (Ok tt, (d', w'))
       /\ homing_done d' = true
       /\ List.length (steps w') = 40%nat
       /\ current_coord d' = 2.0000000000000013%float
       /\ (max_coord d' <? current_coord d')%float = true
       /\ (current_coord d' <=? max_coord d')%float = false.
Proof.
  split; [vm_compute; reflexivity |].
  split; [constructor; vm_compute; reflexivity |].
  split; [vm_compute; reflexivity |].
  split; [split; vm_compute; reflexivity |].
  split; [repeat split; vm_compute; reflexivity |].
  split.
  - eexists _, _. split; [vm_compute; reflexivity |].
    repeat split; vm_compute; reflexivity.
  - eexists _, _. split; [vm_compute; reflexivity |].
    repeat split; vm_compute; reflexivity.
Qed.

(** How a move leaves the busy flag: cleared when it returns or raises one
    of its own [AxisException]s on an idle driver, set when anything else
    is raised. *)
Lemma move_outcome_busy (target_coord : float) (d : AxisDriver) (w : World)
  (r : result unit) (s' : State) :
  move_outcome target_coord d w r s' ->
  busy d = false ->
  busy (fst s')
  = match r with
    | Ok _ | Raise (AxisException _) => false
    | Raise _ => true
    end.
Proof.
  intros H Hb. destruct H; cbn [fst busy set_busy set_current_coord];
    try exact Hb; try congruence; try reflexivity.
  - match goal with
    | E : py_int _ = Raise _ |- _ =>
        destruct (py_int_raises _ _ E) as [-> | ->]; reflexivity
    end.
  - match goal with
    | E : time_sleep _ = Raise _ |- _ =>
        destruct (time_sleep_raises _ _ E) as [-> | ->]; reflexivity
    end.
Qed.

(** C7 (the code departs from the claim): the busy flag is cleared on the
    exits that the method handles itself, and left set on every other
    one.  On the homed rotational axis from -2 to 2, a move to a NaN target
    passes the bounds checks, [int] raises [ValueError], and the flag stays
    set: every later move is turned away with "Axis is busy!".  The same
    happens when [step_size] is zero ([ZeroDivisionError]) and when
    [time.sleep] refuses a pause ([ValueError], here on the tenth call of
    [step], for a configuration in the documented domain).  In general a
    move on an idle driver leaves the flag set exactly when it raises
    something that is not an [AxisException]. *)
Theorem move_failure_leaves_busy_set :
  (init [3; 5; 7]%Z [0.1; 0.001; 0.003; 0.001]%float [-2; 2]%float "ROT"
   = Ok rot_driver
   /\ valid_config rot_driver
   /\ busy (fst rot_state1) = false
   /\ exists s1 : State,
        move_to_coordinate nan rot_state1 = (Raise ValueError, s1)
        /\ busy (fst s1) = true
        /\ forall target_coord : float,
             move_to_coordinate target_coord s1
             = (Raise (AxisException "Axis is busy!"), s1))
  /\ (exists (d0 : AxisDriver) (s1 : State),
        init [3; 5; 7]%Z [0; 0.001; 0.003; 0.001]%float [-2; 2]%float "ROT"
        = Ok d0
        /\ move_to_coordinate 1 (homed d0, world0)
           = (Raise ZeroDivisionError, s1)
        /\ busy (fst s1) = true)
  /\ (exists (d0 : AxisDriver) (s1 : State),
        init [3; 5; 7]%Z [0.1; 1e-19; 0.009; 0.001]%float [-2; 2]%float "ROT"
        = Ok d0
        /\ valid_config d0
        /\ move_to_coordinate 2 (homed d0, world0) = (Raise ValueError, s1)
        /\ List.length (steps (snd s1)) = 10%nat
        /\ busy (fst s1) = true)
  /\ (forall (target_coord : float) (d : AxisDriver) (w : World),
        busy d = false ->
        busy (fst (snd (move_to_coordinate target_coord (d, w))))
        = match fst (move_to_coordinate target_coord (d, w)) with
          | Ok _ | Raise (AxisException _) => false
          | Raise _ => true
          end).
Proof.
  split; [| split; [| split]].
  - split; [vm_compute; reflexivity |].
    split; [constructor; vm_compute; reflexivity |].
    split; [reflexivity |].
    eexists. split; [vm_compute; reflexivity |].
    split; [reflexivity |].
    intros t.
    apply (proj1 (move_to_coordinate_rejects t _ _)). reflexivity.
  - eexists _, _. split; [vm_compute; reflexivity |].
    split; [vm_compute; reflexivity | reflexivity].
  - eexists _, _. split; [vm_compute; reflexivity |].
    split; [constructor; vm_compute; reflexivity |].
    split; [vm_compute; reflexivity |].
    split; vm_compute; reflexivity.
  - intros t d w Hb.
    exact (move_outcome_busy _ _ _ _ _
             (move_to_coordinate_outcome t d w) Hb).
Qed.

(** ** The statements at concrete drivers *)

Lemma rot_driver_init :
  init [3; 5; 7]%Z [0.1; 0.001; 0.003; 0.001]%float [-2; 2]%float "ROT"
  = Ok rot_driver.
Proof. vm_compute. reflexivity. Qed.

Lemma rot_state1_reachable : reachable never_triggered rot_driver rot_state1.
Proof.
  apply (reach_homing never_triggered rot_driver 0 (rot_driver, world0)
           (Ok tt)); [apply reach_init | reflexivity].
Qed.

Lemma create_steps_list_spec_witness :
  _create_steps_list rot_driver 10
  = map (fun i : nat =>
           (max_step rot_driver
            - float_of_int (Z.of_nat i) * delta_step rot_driver)%float)
        (seq 0 3)
    ++ repeat (min_step rot_driver) 4
    ++ map (fun i : nat =>
              (min_step rot_driver
               + float_of_int (Z.of_nat i) * delta_step rot_driver)%float)
           (seq 0 3).
Proof.
  assert (H1 : (min_step rot_driver <=? max_step rot_driver)%float = true)
    by (vm_compute; reflexivity).
  assert (H2 : (0 <? delta_step rot_driver)%float = true)
    by (vm_compute; reflexivity).
  assert (H3 : py_int ((max_step rot_driver - min_step rot_driver)
                       / delta_step rot_driver)
               = Ok (step_intervals rot_driver - 1)%Z)
    by (vm_compute; reflexivity).
  assert (H4 : (0 <= 10)%Z) by lia.
  destruct (create_steps_list_spec rot_driver 10 H1 H2 H3 H4)
    as (_ & _ & _ & _ & _ & H & _).
  apply H. reflexivity.
Defined.

Lemma move_to_coordinate_preconditions_witness :
  move_to_coordinate 0 (set_busy true rot_driver, world0)
  = (Raise (AxisException "Axis is busy!"),
     (set_busy true rot_driver, world0))
  /\ move_to_coordinate 0 (rot_driver, world0)
     = (Raise (AxisException "Homing has not been performed!"),
        (rot_driver, world0))
  /\ move_to_coordinate 3 (homed rot_driver, world0)
     = (Raise (AxisException
                 "Target coordinate is above maximum coordinate for axis!"),
        (homed rot_driver, world0))
  /\ move_to_coordinate (-3) (homed rot_driver, world0)
     = (Raise (AxisException
                 "Targte coordinate is below minimum coordinate for axis!"),
        (homed rot_driver, world0)).
Proof.
  split; [| split; [| split]].
  - apply (move_to_coordinate_preconditions 0 (set_busy true rot_driver)
             world0). reflexivity.
  - apply (move_to_coordinate_preconditions 0 rot_driver world0);
      reflexivity.
  - apply (move_to_coordinate_preconditions 3 (homed rot_driver) world0);
      [reflexivity | reflexivity | vm_compute; reflexivity].
  - apply (move_to_coordinate_preconditions (-3) (homed rot_driver) world0);
      [reflexivity | reflexivity | vm_compute; reflexivity
      | vm_compute; reflexivity].
Defined.

Lemma homing_success_witness :
  homing 0 never_triggered (rot_driver, world0)
  = Some (Ok tt, (homed rot_driver, world0))
  /\ homing 5 (pressed_at [2%nat]) (lin_driver, world0)
     = Some (Ok tt,
             (homed lin_driver,
              [Step false 0.003; Sample false; Step false 0.003;
               Sample false; Step false 0.003; Sample true])).
Proof.
  split.
  - apply (homing_success never_triggered rot_driver world0). reflexivity.
  - apply (homing_success (pressed_at [2%nat]) lin_driver world0)
      with (pin := 7%Z) (k := 2%nat)
           (max_steps := ((max_coord lin_driver - min_coord lin_driver)
                          / step_size lin_driver)%float).
    + intros H. discriminate H.
    + reflexivity.
    + vm_compute. reflexivity.
    + reflexivity.
    + intros j Hj. destruct j as [| [| j]]; [reflexivity | reflexivity | lia].
    + reflexivity.
    + intros j Hj. apply py_int_eq_float_fraction. vm_compute. reflexivity.
    + lia.
Defined.

Lemma init_pin_checks_witness :
  init [3; 3; 7]%Z [0.1; 0.001; 0.003; 0.001]%float [0; 1]%float "LIN"
  = Raise (AxisException
             "Pins number for step and direction must be different")
  /\ init [3; 5; 3]%Z [0.1; 0.001; 0.003; 0.001]%float [0; 1]%float "LIN"
     = Raise (AxisException "Direction pin number is equal to sensor pin.")
  /\ init [3; 5; 5]%Z [0.1; 0.001; 0.003; 0.001]%float [0; 1]%float "LIN"
     = Raise (AxisException "Step pin number is equal to sensor pin.")
  /\ exists d : AxisDriver,
       init [3; 5; 7]%Z [0.1; 0.001; 0.003; 0.001]%float [0; 1]%float "LIN"
       = Ok d
       /\ endstop_interface d = Some 7%Z
       /\ step_intervals d = 3%Z.
Proof.
  assert (Hdl : (0.001 =? 0)%float = false) by (vm_compute; reflexivity).
  assert (Hq : py_int ((0.003 - 0.001) / 0.001) = Ok 2%Z)
    by (vm_compute; reflexivity).
  split; [| split; [| split]].
  - apply (init_pin_checks 3 3 7 0.1 0.001 0.003 0.001 0 1 2). reflexivity.
  - apply (init_pin_checks 3 5 3 0.1 0.001 0.003 0.001 0 1 2);
      [exact Hdl | exact Hq | lia | reflexivity].
  - apply (init_pin_checks 3 5 5 0.1 0.001 0.003 0.001 0 1 2);
      [exact Hdl | exact Hq | lia | reflexivity].
  - destruct (init_pin_checks 3 5 7 0.1 0.001 0.003 0.001 0 1 2)
      as (_ & _ & _ & H).
    destruct (H Hdl Hq ltac:(lia) ltac:(lia) ltac:(lia) "LIN"%string)
      as (d & Hd & _ & _ & He & HI & _).
    exists d. split; [exact Hd |]. split; [exact (He eq_refl) | exact HI].
Defined.

Lemma current_coord_sentinel_before_homing_witness :
  current_coord (fst (snd (move_to_coordinate 1 (rot_driver, world0))))
  = (-1)%float
  /\ (min_coord rot_driver <=? -1)%float = true
  /\ (-1 <=? max_coord rot_driver)%float = true.
Proof.
  split.
  - apply (current_coord_sentinel_before_homing never_triggered
             [3; 5; 7]%Z [0.1; 0.001; 0.003; 0.001]%float [-2; 2]%float "ROT"
             rot_driver).
    + exact rot_driver_init.
    + apply (reach_move never_triggered rot_driver 1 (rot_driver, world0)
               (fst (move_to_coordinate 1 (rot_driver, world0))));
        [apply reach_init | reflexivity].
    + reflexivity.
  - split; vm_compute; reflexivity.
Defined.

(** * Further properties of the code *)

(** ** Construction *)

(** X9: for every axis type other than ['LIN'] the constructor never looks
    at the sensor pin: whatever follows the first two pins, equal to one of
    them or missing, the outcome is the same. *)
Theorem init_ignores_sensor_pin_unless_linear
  (dir step : Z) (pins : list Z) (step_values coord_values : list float)
  (ty : string) :
  ty <> "LIN"%string ->
  init (dir :: step :: pins) step_values coord_values ty
  = init [dir; step] step_values coord_values ty.
Proof.
  intros Hty. apply String.eqb_neq in Hty.
  unfold init, result_bind. cbn [py_index nth_error].
  now rewrite Hty.
Qed.

(** X8: the constructor returns a driver exactly when the three lists are
    long enough (two pins, four step values, two coordinates), the
    direction and step pins differ, [delta_step] is not a zero, the
    quotient [(max_step - min_step) / delta_step] is finite, so that [int]
    accepts it, and, for a linear axis only, a third pin is given that
    differs from the other two.  No sign or order of the numeric values is
    checked. *)
Theorem init_succeeds_iff (pin_values : list Z)
  (step_values coord_values : list float) (ty : string) :
  (exists d : AxisDriver,
      init pin_values step_values coord_values ty = Ok d)
  <-> exists (dir step : Z) (pins : list Z) (ss mn mx dl : float)
             (srest : list float) (cmin cmax : float) (crest : list float)
             (q : Z),
        pin_values = dir :: step :: pins
        /\ step_values = ss :: mn :: mx :: dl :: srest
        /\ coord_values = cmin :: cmax :: crest
        /\ dir <> step
        /\ (dl =? 0)%float = false
        /\ py_int ((mx - mn) / dl) = Ok q
        /\ (ty = "LIN"%string ->
            exists (sensor : Z) (prest : list Z),
              pins = sensor :: prest /\ sensor <> dir /\ sensor <> step).
Proof.
  split.
  - intros (d & H). unfold init, result_bind in H.
    destruct pin_values as [| dir [| step pins]]; try discriminate.
    cbn [py_index nth_error] in H.
    destruct (Z.eqb_spec step dir) as [| Hds]; [discriminate |].
    destruct step_values as [| ss [| mn [| mx [| dl srest]]]];
      try discriminate.
    cbn [py_index nth_error] in H.
    unfold py_div in H.
    destruct (dl =? 0)%float eqn:Edl; [discriminate |].
    destruct (py_int ((mx - mn) / dl)) as [q |] eqn:Eq; [| discriminate].
    destruct coord_values as [| cmin [| cmax crest]]; try discriminate.
    cbn [py_index nth_error] in H.
    exists dir, step, pins, ss, mn, mx, dl, srest, cmin, cmax, crest, q.
    repeat split; try congruence.
    intros ->. cbn [String.eqb Ascii.eqb Bool.eqb] in H.
    destruct pins as [| sensor prest]; [discriminate |].
    cbn [py_index nth_error] in H.
    destruct (Z.eqb_spec dir sensor); [discriminate |].
    destruct (Z.eqb_spec step sensor); [discriminate |].
    exists sensor, prest. repeat split; congruence.
  - intros (dir & step & pins & ss & mn & mx & dl & srest & cmin & cmax
            & crest & q & -> & -> & -> & Hds & Hdl & Hq & Hlin).
    unfold init, result_bind, py_div. cbn [py_index nth_error].
    rewrite (proj2 (Z.eqb_neq step dir)) by congruence.
    rewrite Hdl, Hq.
    destruct (String.eqb_spec ty "LIN") as [Hty | Hty].
    + destruct (Hlin Hty) as (sensor & prest & -> & Hsd & Hss).
      cbn [py_index nth_error].
      rewrite (proj2 (Z.eqb_neq dir sensor)) by congruence.
      rewrite (proj2 (Z.eqb_neq step sensor)) by congruence.
      eauto.
    + eauto.
Qed.

Ltac init_case :=
  match goal with
  | |- context [py_index ?l ?n] => destruct (py_index l n)
  | |- context [nth_error ?l ?n] => destruct (nth_error l n)
  | |- context [py_div ?a ?b] => destruct (py_div a b)
  | |- context [py_int ?a] => destruct (py_int a)
  | |- context [Z.eqb ?a ?b] => destruct (Z.eqb a b)
  | |- context [String.eqb ?a ?b] => destruct (String.eqb a b)
  end.

Lemma init_with_setup_result (pin_values : list Z)
  (step_values coord_values : list float) (ty : string) :
  fst (init_with_setup pin_values step_values coord_values ty)
  = init pin_values step_values coord_values ty.
Proof.
  unfold init_with_setup, init, result_bind.
  repeat (init_case; cbn [fst]; try reflexivity).
Qed.

(** X21: the constructor sets the direction and step pins up as outputs as
    soon as it has found them different, before it reads anything else.
    When it returns a driver it has also set the sensor pin up as input if
    and only if the driver has an endstop; when it raises it has set no pin
    up as input, and it has set the two motor pins up as outputs unless the
    failure was on those two pins themselves: a construction rejected for
    its sensor pin, its step values or its coordinates leaves the motor
    pins configured. *)
Theorem init_pin_setup (pin_values : list Z)
  (step_values coord_values : list float) (ty : string) :
  let r := fst (init_with_setup pin_values step_values coord_values ty) in
  let setup := snd (init_with_setup pin_values step_values coord_values ty) in
  r = init pin_values step_values coord_values ty
  /\ (forall d : AxisDriver,
        r = Ok d ->
        setup
        = StepperInterface_init (dir_pin d) (step_pin d)
          ++ match endstop_interface d with
             | Some pin => EndstopInterface_init pin
             | None => []
             end)
  /\ (forall e : exn,
        r = Raise e ->
        (forall pin : Z, ~ In (SetupIn pin) setup)
        /\ ((setup = []
             /\ (e = IndexError
                 \/ exists pin rest, pin_values = pin :: pin :: rest))
            \/ exists dir step rest,
                 pin_values = dir :: step :: rest /\ dir <> step
                 /\ setup = StepperInterface_init dir step)).
Proof.
  cbv zeta. split; [apply init_with_setup_result |].
  unfold init_with_setup, result_bind.
  destruct pin_values as [| dir [| step rest]]; cbn [py_index nth_error fst snd].
  1-2: split; [discriminate |]; intros e H; injection H as <-;
       split; [intros pin [] | left; auto].
  destruct (Z.eqb_spec step dir) as [-> | Hds]; cbn [fst snd].
  { split; [discriminate |]. intros e _.
    split; [intros pin [] | left; eauto]. }
  assert (Hnoin : forall pin : Z,
            ~ In (SetupIn pin) (StepperInterface_init dir step)).
  { intros pin [C | [C | [C | []]]]; discriminate. }
  assert (Hraise : forall e : exn,
            (forall pin : Z,
                ~ In (SetupIn pin) (StepperInterface_init dir step))
            /\ ((StepperInterface_init dir step = []
                 /\ (e = IndexError
                     \/ exists pin rest0,
                          dir :: step :: rest = pin :: pin :: rest0))
                \/ exists dir0 step0 rest0,
                     dir :: step :: rest = dir0 :: step0 :: rest0
                     /\ dir0 <> step0
                     /\ StepperInterface_init dir step
                        = StepperInterface_init dir0 step0)).
  { intros e. split; [exact Hnoin |]. right.
    exists dir, step, rest. repeat split. congruence. }
  repeat (init_case; cbn [fst snd];
          try (split; [discriminate | intros ? _; apply Hraise])).
  all: split; [| discriminate]; intros d H; injection H as <-;
    cbn [dir_pin step_pin endstop_interface];
    try reflexivity; now rewrite app_nil_r.
Qed.

(** ** Homing *)

(** X10: a call of [homing] that raises leaves every attribute of the
    driver as it was, [homing_done] and [current_coord] included, although
    it may have driven the axis: an axis that was homed is still reported
    homed, at its old coordinate, after a failed re-homing. *)
Theorem failed_homing_changes_no_attribute
  (fuel : nat) (sensor : nat -> bool) (d : AxisDriver) (w : World)
  (e : exn) (d' : AxisDriver) (w' : World) :
  homing fuel sensor (d, w) = Some (Raise e, (d', w')) ->
  d' = d
  /\ exists k : nat, steps w' = steps w ++ repeat (false, max_step d) k.
Proof.
  intros H. split.
  - destruct (homing_cases _ _ _ _ _ _ H) as [[C _] | (ex & _ & E)];
      [discriminate | exact E].
  - exact (homing_world _ _ _ _ _ _ H).
Qed.

(** ** Moves *)

(** A move whose pauses [time.sleep] all accepts. *)
Lemma move_to_coordinate_run (target_coord : float) (d : AxisDriver)
  (w : World) (n : Z) :
  passes_checks target_coord d ->
  (step_size d =? 0)%float = false ->
  py_int (abs (current_coord d - target_coord) / step_size d) = Ok n ->
  Forall accepted (_create_steps_list d n) ->
  let dir := _calculate_direction (current_coord d - target_coord) in
  let plan := _create_steps_list d n in
  move_to_coordinate target_coord (d, w)
  = (Ok tt,
     (set_current_coord
        (walk dir (List.length plan) (current_coord d) (step_size d)) d,
      w ++ map (Step dir) plan)).
Proof.
  intros Hp Hz Hn Hall dir plan.
  rewrite (move_to_coordinate_passes _ _ _ Hp).
  unfold py_div. rewrite Hz, Hn.
  rewrite (for_each_move_body _ _ Hall).
  destruct Hp as (Hb & _). f_equal. f_equal.
  destruct d; cbn in Hb |- *; now subst.
Qed.

(** X6: [move_to_coordinate] returns normally exactly when the driver is
    idle and homed, the target passes the two bounds tests, [step_size] is
    not a zero, the quotient [|current_coord - target| / step_size] is
    finite, so that [int] turns it into a number of pulses, and
    [time.sleep] accepts every pause of the plan for that number. *)
Theorem move_succeeds_iff (target_coord : float) (d : AxisDriver)
  (w : World) :
  fst (move_to_coordinate target_coord (d, w)) = Ok tt
  <-> passes_checks target_coord d
      /\ (step_size d =? 0)%float = false
      /\ exists n : Z,
           py_int (abs (current_coord d - target_coord) / step_size d) = Ok n
           /\ Forall accepted (_create_steps_list d n).
Proof.
  split.
  - intros H.
    pose proof (move_to_coordinate_outcome target_coord d w) as Ho.
    rewrite H in Ho. inversion Ho; subst. eauto.
  - intros (Hp & Hz & n & Hn & Hall).
    now rewrite (move_to_coordinate_run _ _ _ _ Hp Hz Hn Hall).
Qed.

(** X3: whatever the state and the target, and whether it returns or
    raises, [move_to_coordinate] never samples the endstop, never writes
    [homing_done] or a configuration attribute, and makes all its calls of
    [step] in the one direction it has computed.  The coordinate has been
    updated, by one rounded addition or subtraction of [step_size] each,
    for exactly the calls of [step] that returned: all of them when the
    move returns; when it raises, either no call was made, or all but the
    last one, the call in which [time.sleep] raised. *)
Theorem move_to_coordinate_accounting
  (target_coord : float) (d : AxisDriver) (w : World) :
  let r := fst (move_to_coordinate target_coord (d, w)) in
  let d' := fst (snd (move_to_coordinate target_coord (d, w))) in
  let w' := snd (snd (move_to_coordinate target_coord (d, w))) in
  let dir := _calculate_direction (current_coord d - target_coord) in
  same_config d d'
  /\ homing_done d' = homing_done d
  /\ exists (returned : list float),
       Forall accepted returned
       /\ current_coord d'
          = walk dir (List.length returned) (current_coord d) (step_size d)
       /\ ((r = Ok tt /\ w' = w ++ map (Step dir) returned)
           \/ (exists e : exn,
                 r = Raise e
                 /\ ((returned = [] /\ w' = w)
                     \/ exists p : float,
                          time_sleep p = Raise e
                          /\ w' = w ++ map (Step dir) (returned ++ [p])))).
Proof.
  cbv zeta.
  pose proof (move_to_coordinate_outcome target_coord d w) as Ho.
  destruct (move_outcome_frame _ _ _ _ _ Ho) as (Hc & Hh & _ & _).
  split; [exact Hc |]. split; [exact Hh |].
  destruct (move_to_coordinate target_coord (d, w)) as [r [d' w']].
  cbn [fst snd] in *.
  inversion Ho; subst;
    try (exists []; split; [constructor |]; split; [reflexivity |];
         right; eexists; split; [reflexivity |]; left; split; reflexivity).
  - exists (_create_steps_list d n). split; [assumption |].
    split; [reflexivity |]. left. split; reflexivity.
  - exists done. split; [assumption |]. split; [reflexivity |].
    right. exists e. split; [reflexivity |]. right. exists p.
    split; [assumption | reflexivity].
Qed.

Lemma homing_raises (fuel : nat) (sensor : nat -> bool) (d : AxisDriver)
  (w : World) (e : exn) (s' : State) :
  homing fuel sensor (d, w) = Some (Raise e, s') ->
  (e = ZeroDivisionError /\ (step_size d =? 0)%float = true /\ s' = (d, w))
  \/ ((step_size d =? 0)%float = false
      /\ ((time_sleep (max_step d) = Raise e)
          \/ (accepted (max_step d) /\ e = AttributeError
              /\ endstop_interface d = None)
          \/ (accepted (max_step d)
              /\ e = AxisException max_steps_message
              /\ exists pin : Z, endstop_interface d = Some pin))).
Proof.
  intros H.
  destruct (String.eqb_spec (axis_type d) "ROT") as [Ht | Ht].
  { rewrite (homing_rot _ _ _ _ Ht) in H. discriminate. }
  rewrite (homing_lin _ _ _ _ Ht) in H.
  destruct (py_div (max_coord d - min_coord d) (step_size d))
    as [ms | e0] eqn:Hdiv.
  2:{ injection H as <- <-. apply py_div_Raise in Hdiv.
      destruct Hdiv as [Hz ->]. left. auto. }
  apply py_div_Ok in Hdiv. destruct Hdiv as [Hz _].
  right. split; [exact Hz |].
  destruct (homing_loop fuel sensor ms 0 (d, w)) as [[[[] | e1] s1] |] eqn:El;
    try discriminate.
  injection H as <- <-.
  apply homing_loop_last_pass in El.
  destruct El as (k & sk & _ & Hfl & [[C _] | (ex & Hex & Eb)]);
    [discriminate |].
  injection Hex as <-.
  apply homing_in_flight_shape in Hfl. subst sk. unfold after_pulses in Eb.
  destruct (homing_body_cases sensor ms (0 + Z.of_nat k) d
              (w ++ idle_passes (max_step d) k))
    as [(ex & Hp & E) | [(Hp & He & E) | (Hp & He & E)]];
    rewrite E in Eb.
  - injection Eb as <- _. left. exact Hp.
  - injection Eb as <- _. right. left. auto.
  - destruct (py_int_eq_float (0 + Z.of_nat k + 1) ms); [| discriminate].
    injection Eb as <- _. right. right. auto.
Qed.

(** X7: the exceptions that leave the two methods.  A move raises one of
    its four [AxisException]s, the state untouched, or, past its checks
    and with the busy flag left set, [ZeroDivisionError] (exactly when
    [step_size] is a zero), [ValueError] or [OverflowError] (from [int]
    or from [time.sleep]).  A homing raises the budget [AxisException],
    [ZeroDivisionError], [AttributeError] (when there is no endstop
    object), or the [ValueError] or [OverflowError] of [time.sleep].
    Neither ever raises [IndexError]. *)
Theorem driver_exceptions (sensor : nat -> bool) (d : AxisDriver)
  (w : World) :
  (forall (target_coord : float) (e : exn) (s' : State),
      move_to_coordinate target_coord (d, w) = (Raise e, s') ->
      (exists msg : string,
          e = AxisException msg /\ In msg move_messages /\ s' = (d, w))
      \/ (passes_checks target_coord d /\ busy (fst s') = true
          /\ ((e = ZeroDivisionError /\ (step_size d =? 0)%float = true)
              \/ ((e = ValueError \/ e = OverflowError)
                  /\ (step_size d =? 0)%float = false))))
  /\ (forall (fuel : nat) (e : exn) (s' : State),
        homing fuel sensor (d, w) = Some (Raise e, s') ->
        e = AxisException max_steps_message \/ e = ZeroDivisionError
        \/ e = AttributeError \/ e = ValueError \/ e = OverflowError).
Proof.
  split.
  - intros t e s' H.
    pose proof (move_to_coordinate_outcome t d w) as Ho.
    rewrite H in Ho. cbn [fst snd] in Ho.
    inversion Ho; subst;
      try (left; eexists; split; [reflexivity |];
           split; [cbn; auto 6 | reflexivity]);
      right; (split; [assumption |]); (split; [reflexivity |]).
    + left. auto.
    + right. split; [| assumption].
      match goal with
      | E : py_int _ = Raise _ |- _ => exact (py_int_raises _ _ E)
      end.
    + right. split; [| assumption].
      match goal with
      | E : time_sleep _ = Raise _ |- _ => exact (time_sleep_raises _ _ E)
      end.
  - intros fuel e s' H.
    destruct (homing_raises _ _ _ _ _ _ H)
      as [(-> & _) | (_ & [Hp | [(_ & -> & _) | (_ & -> & _)]])]; auto.
    destruct (time_sleep_raises _ _ Hp) as [-> | ->]; auto.
Qed.

(** ** Homing against its budget and on other hardware *)

Lemma py_int_eq_float_unique (i j : Z) (x : float) :
  py_int_eq_float i x = true -> py_int_eq_float j x = true -> i = j.
Proof.
  unfold py_int_eq_float.
  destruct (Prim2SF x) as [s | s | | s m e]; try discriminate.
  - intros Hi Hj. apply Z.eqb_eq in Hi, Hj. congruence.
  - intros Hi Hj. apply andb_true_iff in Hi, Hj.
    destruct Hi as [_ Hi], Hj as [_ Hj].
    apply Z.eqb_eq in Hi, Hj. congruence.
Qed.

Lemma first_pressed (sensor : nat -> bool) (base N : nat) :
  (exists j : nat,
      (j < N)%nat /\ sensor (base + j)%nat = true
      /\ forall i : nat, (i < j)%nat -> sensor (base + i)%nat = false)
  \/ (forall j : nat, (j < N)%nat -> sensor (base + j)%nat = false).
Proof.
  induction N as [| N [(j & Hj & Ht & Hf) | Hnone]].
  - right. intros j Hj. lia.
  - left. exists j. auto.
  - destruct (sensor (base + N)%nat) eqn:E.
    + left. exists N. auto.
    + right. intros j Hj.
      destruct (Nat.eq_dec j N) as [-> | Hne]; [exact E | apply Hnone; lia].
Qed.

(** A linear homing whose budget is a whole number [N + 1] of pulses: it
    ends within the budget, one way or the other. *)
Lemma homing_whole_budget_run
  (sensor : nat -> bool) (d : AxisDriver) (w : World) (pin : Z) (N : nat)
  (max_steps : float) (fuel : nat) :
  axis_type d <> "ROT"%string ->
  endstop_interface d = Some pin ->
  accepted (max_step d) ->
  py_div (max_coord d - min_coord d) (step_size d) = Ok max_steps ->
  py_int_eq_float (Z.of_nat (S N)) max_steps = true ->
  (N < fuel)%nat ->
  exists (r : result unit) (d' : AxisDriver) (k : nat) (last : bool),
    homing fuel sensor (d, w)
    = Some (r, (d', w ++ idle_passes (max_step d) k
                      ++ [Step false (max_step d); Sample last]))
    /\ (k <= N)%nat
    /\ last = sensor (samples w + k)%nat
    /\ (r = Ok tt
        <-> exists j : nat, (j < N)%nat /\ sensor (samples w + j)%nat = true)
    /\ ((r = Ok tt /\ d' = homed d /\ (k < N)%nat /\ last = true)
        \/ (r = Raise (AxisException max_steps_message) /\ d' = d
            /\ k = N)).
Proof.
  intros Ht He Hp Hdiv Hq Hf.
  assert (Hbelow : forall j : nat, (j < N)%nat ->
            py_int_eq_float (Z.of_nat (S j)) max_steps = false).
  { intros j Hj.
    destruct (py_int_eq_float (Z.of_nat (S j)) max_steps) eqn:E;
      [| reflexivity].
    pose proof (py_int_eq_float_unique _ _ _ E Hq). lia. }
  destruct (first_pressed sensor (samples w) N)
    as [(j & Hj & Hpressed & Hquiet) | Hnone].
  - exists (Ok tt), (homed d), j, true.
    assert (Hrun : homing fuel sensor (d, w)
                   = Some (Ok tt,
                           (homed d,
                            w ++ idle_passes (max_step d) j
                              ++ [Step false (max_step d); Sample true]))).
    { apply (homing_run_success sensor d w pin j max_steps Ht He Hp Hdiv
               Hquiet Hpressed); [| lia].
      intros i Hi.
      replace (Z.of_nat i + 1)%Z with (Z.of_nat (S i)) by lia.
      apply Hbelow. lia. }
    split; [exact Hrun |]. split; [lia |].
    split; [now rewrite Hpressed |]. split.
    + split; [eauto | reflexivity].
    + left. repeat split. exact Hj.
  - exists (Raise (AxisException max_steps_message)), d, N,
      (sensor (samples w + N)%nat).
    split; [exact (homing_budget_integral sensor d w pin N max_steps Ht He
                     Hp Hdiv Hq Hbelow Hnone fuel Hf) |].
    split; [lia |]. split; [reflexivity |]. split.
    + split; [discriminate |].
      intros (j & Hj & Hpr). rewrite (Hnone j Hj) in Hpr. discriminate.
    + right. auto.
Qed.

(** X11: when the rounded quotient [(max_coord - min_coord) / step_size]
    is exactly a whole number [N + 1] and [time.sleep] accepts [max_step],
    a linear homing always ends, after at most [N + 1] calls of [step],
    each followed by a sample.  It succeeds exactly when the sensor is read
    pressed on one of the first [N] samples; otherwise it raises on pulse
    [N + 1], even if the sensor is pressed on that very sample. *)
Theorem homing_whole_budget
  (sensor : nat -> bool) (d : AxisDriver) (w : World) (pin : Z) (N : nat)
  (max_steps : float) (fuel : nat) :
  axis_type d <> "ROT"%string ->
  endstop_interface d = Some pin ->
  accepted (max_step d) ->
  py_div (max_coord d - min_coord d) (step_size d) = Ok max_steps ->
  py_int_eq_float (Z.of_nat (S N)) max_steps = true ->
  (N < fuel)%nat ->
  exists (r : result unit) (d' : AxisDriver) (k : nat) (last : bool),
    homing fuel sensor (d, w)
    = Some (r, (d', w ++ idle_passes (max_step d) k
                      ++ [Step false (max_step d); Sample last]))
    /\ (k <= N)%nat
    /\ last = sensor (samples w + k)%nat
    /\ (r = Ok tt
        <-> exists j : nat, (j < N)%nat /\ sensor (samples w + j)%nat = true)
    /\ ((r = Ok tt /\ d' = homed d /\ (k < N)%nat /\ last = true)
        \/ (r = Raise (AxisException max_steps_message) /\ d' = d
            /\ k = N)).
Proof.
  exact (homing_whole_budget_run sensor d w pin N max_steps fuel).
Qed.

(** X12: with the substitute GPIO library, whose input always reads low,
    the endstop always samples as pressed, so a linear homing (with a
    pause that [time.sleep] accepts and a [step_size] that is not a zero)
    makes one call of [step] and one sample and succeeds, unless the
    rounded quotient [(max_coord - min_coord) / step_size] is exactly 1,
    in which case it raises after that pulse. *)
Theorem homing_with_mock_gpio
  (d : AxisDriver) (w : World) (pin : Z) (max_steps : float) (fuel : nat) :
  axis_type d <> "ROT"%string ->
  endstop_interface d = Some pin ->
  accepted (max_step d) ->
  py_div (max_coord d - min_coord d) (step_size d) = Ok max_steps ->
  (0 < fuel)%nat ->
  homing fuel (mock_sensor pin) (d, w)
  = if py_int_eq_float 1 max_steps
    then Some (Raise (AxisException max_steps_message),
               (d, w ++ [Step false (max_step d); Sample true]))
    else Some (Ok tt,
               (homed d, w ++ [Step false (max_step d); Sample true])).
Proof.
  intros Ht He Hp Hdiv Hf.
  rewrite (homing_lin _ _ _ _ Ht), Hdiv.
  rewrite (homing_loop_after_prefix (mock_sensor pin) _ pin 0 fuel 0 d w
             He Hp Hf); [| intros j Hj; lia | intros j Hj; lia].
  cbv zeta. cbn [Z.of_nat Z.add idle_passes app].
  change (mock_sensor pin (samples w + 0)%nat) with true.
  destruct (py_int_eq_float 1 max_steps); reflexivity.
Qed.

Lemma init_no_endstop (pin_values : list Z)
  (step_values coord_values : list float) (ty : string) (d : AxisDriver) :
  init pin_values step_values coord_values ty = Ok d ->
  ty <> "LIN"%string -> endstop_interface d = None.
Proof.
  intros H Hty. apply String.eqb_neq in Hty. unfold init, result_bind in H.
  rewrite Hty in H.
  repeat match type of H with
         | match ?x with _ => _ end = _ =>
             destruct x eqn:?; try discriminate H
         | (if ?x then _ else _) = _ =>
             destruct x eqn:?; try discriminate H
         end;
    now injection H as <-.
Qed.

(** X19: an axis type that is neither ['LIN'] nor ['ROT'] is accepted by
    the constructor, but a homing of such a driver (with a [step_size]
    that is not a zero and a [max_step] that [time.sleep] accepts) makes
    one call of [step] and then fails with an [AttributeError], which the
    handler of the node, catching [AxisException] only, lets escape. *)
Theorem unknown_axis_type_breaks_homing
  (sensor : nat -> bool) (pin_values : list Z)
  (step_values coord_values : list float) (ty : string)
  (d0 d : AxisDriver) (w : World) (fuel : nat) :
  init pin_values step_values coord_values ty = Ok d0 ->
  ty <> "LIN"%string -> ty <> "ROT"%string ->
  (step_size d0 =? 0)%float = false ->
  accepted (max_step d0) ->
  reachable sensor d0 (d, w) ->
  (0 < fuel)%nat ->
  homing fuel sensor (d, w)
  = Some (Raise AttributeError, (d, w ++ [Step false (max_step d)]))
  /\ forall (res : bool) (out : list node_event),
       homing_handler fuel sensor (mkAxisNode (d, w) res out)
       = Some (Raise AttributeError,
               mkAxisNode (d, w ++ [Step false (max_step d)]) res out).
Proof.
  intros Hinit Hlin Hrot Hs Hp Hr Hf.
  pose proof (reachable_same_config _ _ _ Hr) as Hc. cbn [fst] in Hc.
  destruct Hc as (_ & _ & _ & Hend & Ess & _ & Ems & _ & _ & _ & _ & Haxis).
  destruct (init_fresh _ _ _ _ _ Hinit) as (_ & _ & _ & Hat).
  pose proof (init_no_endstop _ _ _ _ _ Hinit Hlin) as He0.
  assert (He : endstop_interface d = None) by congruence.
  assert (Hrun : homing fuel sensor (d, w)
                 = Some (Raise AttributeError,
                         (d, w ++ [Step false (max_step d)]))).
  { rewrite homing_lin by (rewrite Haxis, Hat; exact Hrot).
    unfold py_div. rewrite Ess, Hs.
    destruct fuel as [| fuel]; [lia |]. cbn [homing_loop].
    rewrite (homing_body_no_endstop _ _ _ _ _ He)
      by (rewrite Ems; exact Hp).
    reflexivity. }
  split; [exact Hrun |].
  intros res out. unfold homing_handler. cbn [axis_driver].
  now rewrite Hrun.
Qed.

(** ** The action callback of the node *)

(** X17: the action callback ends the goal exactly once, and returns, when
    the move returns (success, [result] true) or raises one of its
    [AxisException]s (aborted, [result] false, then the message logged,
    the driver and the hardware untouched).  When the move raises anything
    else ([ZeroDivisionError], [ValueError] or [OverflowError]) the
    exception escapes the callback: the goal is ended neither way, nothing
    is logged, and the driver is left with its busy flag set. *)
Theorem action_execute_cb_reports
  (target_coordinate : float) (nd : AxisNode) :
  let m := move_to_coordinate target_coordinate (axis_driver nd) in
  let r := fst (action_execute_cb target_coordinate nd) in
  let nd' := snd (action_execute_cb target_coordinate nd) in
  axis_driver nd' = snd m
  /\ ((fst m = Ok tt /\ r = Ok tt
       /\ ros_out nd' = ros_out nd ++ [SetSucceeded true]
       /\ axis_action_res nd' = true)
      \/ (exists msg : string,
            fst m = Raise (AxisException msg) /\ In msg move_messages
            /\ r = Ok tt
            /\ axis_driver nd' = axis_driver nd
            /\ ros_out nd' = ros_out nd ++ [SetAborted false; Logerr msg]
            /\ axis_action_res nd' = false)
      \/ (exists e : exn,
            fst m = Raise e
            /\ (e = ZeroDivisionError \/ e = ValueError \/ e = OverflowError)
            /\ r = Raise e
            /\ ros_out nd' = ros_out nd
            /\ axis_action_res nd' = axis_action_res nd
            /\ busy (fst (axis_driver nd')) = true)).
Proof.
  destruct nd as [[d w] res out]. cbv zeta.
  unfold action_execute_cb. cbn [axis_driver ros_out axis_action_res].
  destruct (move_to_coordinate target_coordinate (d, w)) as [r s'] eqn:E.
  destruct r as [[] | e].
  - cbn. split; [reflexivity |]. left. auto.
  - pose proof (move_to_coordinate_outcome target_coordinate d w) as Ho.
    rewrite E in Ho. cbn [fst snd] in Ho.
    inversion Ho; subst;
      try match goal with
          | H : py_int _ = Raise _ |- _ =>
              destruct (py_int_raises _ _ H) as [-> | ->]
          | H : time_sleep _ = Raise _ |- _ =>
              destruct (time_sleep_raises _ _ H) as [-> | ->]
          end;
      cbn [fst snd axis_driver ros_out axis_action_res];
      (split; [reflexivity |]);
      try (right; left; eexists; split; [reflexivity |];
           split; [cbn; auto 6 | auto]; fail);
      right; right; eexists; (split; [reflexivity |]); auto 7.
Qed.

(** ** The further properties at concrete drivers *)

Lemma lin2_state1_reachable :
  reachable (pressed_at [0%nat]) lin_driver2 lin2_state1.
Proof.
  apply (reach_homing (pressed_at [0%nat]) lin_driver2 1
           (lin_driver2, world0) (Ok tt));
    [apply reach_init | vm_compute; reflexivity].
Qed.

Lemma init_ignores_sensor_pin_unless_linear_witness :
  init [3; 5; 3]%Z [0.1; 0.001; 0.003; 0.001]%float [-2; 2]%float "ROT"
  = init [3; 5]%Z [0.1; 0.001; 0.003; 0.001]%float [-2; 2]%float "ROT".
Proof.
  apply (init_ignores_sensor_pin_unless_linear 3 5 [3%Z]).
  intros H. discriminate H.
Defined.

Lemma failed_homing_changes_no_attribute_witness :
  homing_done (homed lin_driver2) = true
  /\ exists k : nat,
       steps [Step false 0.003; Sample true; Step false 0.003;
              Sample false; Step false 0.003; Sample false]
       = steps (snd lin2_state1)
         ++ repeat (false, max_step (homed lin_driver2)) k.
Proof.
  split; [reflexivity |].
  apply (failed_homing_changes_no_attribute 5 (pressed_at [0%nat])
           (homed lin_driver2) (snd lin2_state1)
           (AxisException max_steps_message) (homed lin_driver2)
           [Step false 0.003; Sample true; Step false 0.003;
            Sample false; Step false 0.003; Sample false]).
  vm_compute. reflexivity.
Defined.

Lemma homing_whole_budget_witness :
  exists (r : result unit) (d' : AxisDriver) (k : nat) (last : bool),
    homing 5 never_triggered (lin_driver2, world0)
    = Some (r, (d', world0 ++ idle_passes (max_step lin_driver2) k
                      ++ [Step false (max_step lin_driver2); Sample last]))
    /\ (k <= 1)%nat
    /\ last = never_triggered (samples world0 + k)%nat
    /\ (r = Ok tt
        <-> exists j : nat,
              (j < 1)%nat /\ never_triggered (samples world0 + j)%nat = true)
    /\ ((r = Ok tt /\ d' = homed lin_driver2 /\ (k < 1)%nat /\ last = true)
        \/ (r = Raise (AxisException max_steps_message) /\ d' = lin_driver2
            /\ k = 1%nat)).
Proof.
  apply (homing_whole_budget never_triggered lin_driver2 world0 7 1
           ((max_coord lin_driver2 - min_coord lin_driver2)
            / step_size lin_driver2)%float 5).
  - intros H. discriminate H.
  - reflexivity.
  - vm_compute. reflexivity.
  - reflexivity.
  - vm_compute. reflexivity.
  - lia.
Defined.

Lemma homing_with_mock_gpio_witness :
  homing 1 (mock_sensor 7) (lin_driver, world0)
  = Some (Ok tt, (homed lin_driver, [Step false 0.003; Sample true])).
Proof.
  apply (homing_with_mock_gpio lin_driver world0 7
           ((max_coord lin_driver - min_coord lin_driver)
            / step_size lin_driver)%float 1).
  - intros H. discriminate H.
  - reflexivity.
  - vm_compute. reflexivity.
  - reflexivity.
  - lia.
Defined.

Lemma unknown_axis_type_breaks_homing_witness :
  let d := mkAxisDriver 3 5 None None 0.1 0.001 0.003 0.001 3 (-2) 2 "XYZ"
             (-1) false false in
  homing 1 never_triggered (d, world0)
  = Some (Raise AttributeError, (d, world0 ++ [Step false (max_step d)]))
  /\ forall (res : bool) (out : list node_event),
       homing_handler 1 never_triggered (mkAxisNode (d, world0) res out)
       = Some (Raise AttributeError,
               mkAxisNode (d, world0 ++ [Step false (max_step d)]) res out).
Proof.
  intros d.
  apply (unknown_axis_type_breaks_homing never_triggered
           [3; 5]%Z [0.1; 0.001; 0.003; 0.001]%float [-2; 2]%float "XYZ"
           d d world0 1).
  - vm_compute. reflexivity.
  - intros H. discriminate H.
  - intros H. discriminate H.
  - vm_compute. reflexivity.
  - vm_compute. reflexivity.
  - apply reach_init.
  - lia.
Defined.

(** ** The pulses of a move that returns *)

Lemma abs_not_negative (x : float) : not_negative (abs x).
Proof.
  unfold not_negative. rewrite abs_spec.
  destruct (Prim2SF x); cbn; trivial.
Qed.

Lemma Forall_accepted_firstn (k : nat) (plan : list float) :
  Forall accepted plan -> Forall accepted (firstn k plan).
Proof.
  intros H. rewrite <- (firstn_skipn k plan) in H.
  apply Forall_app in H. exact (proj1 H).
Qed.

Lemma move_in_flight_passes (k : nat) (target_coord : float) (d : AxisDriver)
  (w : World) :
  passes_checks target_coord d ->
  move_in_flight k target_coord (d, w)
  = match py_div (abs (current_coord d - target_coord)) (step_size d) with
    | Raise e => (Raise e, (set_busy true d, w))
    | Ok ratio =>
        match py_int ratio with
        | Raise e => (Raise e, (set_busy true d, w))
        | Ok n =>
            for_each (firstn k (_create_steps_list d n))
              (move_body
                 (_calculate_direction (current_coord d - target_coord)))
              (set_busy true d, w)
        end
    end.
Proof.
  intros (Hb & Hh & Hmax & Hmin).
  run_monad. rewrite Hb. run_monad. rewrite Hh. run_monad.
  rewrite Hmax. run_monad. rewrite Hmin. run_monad.
  destruct (py_div (abs (current_coord d - target_coord)) (step_size d))
    as [ratio | e]; [| reflexivity].
  run_monad. destruct (py_int ratio) as [n | e]; [| reflexivity].
  run_monad. reflexivity.
Qed.

(** X22: on a driver with a positive [step_size] and a number of speed
    levels that is not negative, a move that returns has issued exactly
    [n = int (|current_coord - target| / step_size)] pulses, the quotient
    rounded as a double and then truncated, [n >= 0], all in the direction
    computed from the sign of [current_coord - target], with the pauses of
    the plan for [n].  After the [k]-th pulse, [k <= n], with the axis
    still busy, the coordinate is the start plus or minus [step_size] [k]
    times in double arithmetic; at the end the busy flag is cleared. *)
Theorem move_pulse_count (target_coord : float) (d d' : AxisDriver)
  (w w' : World) :
  (0 <? step_size d)%float = true ->
  (0 <= step_intervals d)%Z ->
  move_to_coordinate target_coord (d, w) = (Ok tt, (d', w')) ->
  let dir := _calculate_direction (current_coord d - target_coord) in
  exists n : Z,
    py_int (abs (current_coord d - target_coord) / step_size d) = Ok n
    /\ (0 <= n)%Z
    /\ List.length (_create_steps_list d n) = Z.to_nat n
    /\ w' = w ++ map (Step dir) (_create_steps_list d n)
    /\ d' = set_current_coord
              (walk dir (Z.to_nat n) (current_coord d) (step_size d)) d
    /\ busy d' = false
    /\ forall k : nat, (k <= Z.to_nat n)%nat ->
         move_in_flight k target_coord (d, w)
         = (Ok tt,
            (set_current_coord
               (walk dir k (current_coord d) (step_size d))
               (set_busy true d),
             w ++ map (Step dir) (firstn k (_create_steps_list d n)))).
Proof.
  intros Hs HI H dir.
  pose proof (move_to_coordinate_outcome target_coord d w) as Ho.
  rewrite H in Ho. cbn [fst snd] in Ho.
  inversion Ho as [| | | | | | n Hp Hz Hn Hall dir' plan Hr [Hd Hw] |]; subst.
  subst dir' plan. fold dir. exists n.
  assert (Hpos : (0 <= n)%Z).
  { apply (py_int_not_negative _ _
             (div_not_negative _ _ (abs_not_negative _) Hs) Hn). }
  pose proof (create_steps_list_length d n HI Hpos) as Hlen.
  split; [exact Hn |]. split; [exact Hpos |]. split; [exact Hlen |].
  split; [reflexivity |]. split; [now rewrite Hlen |].
  split; [destruct Hp as (Hb & _); exact Hb |].
  intros k Hk.
  rewrite (move_in_flight_passes _ _ _ _ Hp). unfold py_div.
  rewrite Hz, Hn.
  rewrite (for_each_move_body _ _ (Forall_accepted_firstn k _ Hall)).
  rewrite length_firstn, Hlen, Nat.min_l by exact Hk.
  reflexivity.
Qed.

(** ** A move to where the axis is *)

(** When [x <= y] holds, [y < x] does not. *)
Lemma leb_not_ltb (x y : float) :
  (x <=? y)%float = true -> (y <? x)%float = false.
Proof.
  rewrite leb_spec, ltb_spec. unfold SFleb, SFltb.
  destruct (Prim2SF x) as [sx | sx | | sx mx ex];
    destruct (Prim2SF y) as [sy | sy | | sy my ey];
    cbn [SFcompare]; try discriminate; try reflexivity;
    try (destruct sx; try discriminate; try reflexivity;
         destruct sy; try discriminate; reflexivity);
    try (destruct sy; try discriminate; reflexivity).
  change (Pos.compare_cont Eq mx my) with (mx ?= my)%positive.
  change (Pos.compare_cont Eq my mx) with (my ?= mx)%positive.
  rewrite (Z.compare_antisym ex ey), (Pos.compare_antisym mx my).
  destruct sx, sy; try discriminate; try reflexivity;
    destruct (ex ?= ey)%Z; cbn [CompOpp]; try discriminate;
    try reflexivity;
    destruct (mx ?= my)%positive; cbn [CompOpp]; try discriminate;
    reflexivity.
Qed.

Lemma in_range_passes_checks (d : AxisDriver) :
  busy d = false -> homing_done d = true -> in_range d ->
  passes_checks (current_coord d) d.
Proof.
  intros Hb Hh [Hmin Hmax]. repeat split; auto using leb_not_ltb.
Qed.

(** A finite double minus itself is the zero with the positive sign. *)
Lemma sub_diag_zero (x : float) :
  float_is_finite x = true -> Prim2SF (x - x) = S754_zero false.
Proof.
  unfold float_is_finite. rewrite sub_spec.
  destruct (Prim2SF x) as [s | s | | s m e]; try discriminate; intros _.
  - destruct s; reflexivity.
  - unfold SF64sub, SFsub. rewrite Z.sub_diag. reflexivity.
Qed.

Lemma zero_div_positive (a b : float) :
  Prim2SF a = S754_zero false -> (0 <? b)%float = true ->
  Prim2SF (a / b) = S754_zero false.
Proof.
  intros Ha. rewrite ltb_spec, div_spec, Ha.
  change (Prim2SF 0) with (S754_zero false).
  destruct (Prim2SF b) as [s | s | | s m e]; unfold SFltb;
    cbn [SFcompare]; intros H; try discriminate H;
    destruct s; try discriminate H; reflexivity.
Qed.

Lemma positive_not_zero (b : float) :
  (0 <? b)%float = true -> (b =? 0)%float = false.
Proof.
  rewrite ltb_spec, eqb_spec. change (Prim2SF 0) with (S754_zero false).
  destruct (Prim2SF b) as [s | s | | s m e]; unfold SFltb, SFeqb;
    cbn [SFcompare]; intros H; try discriminate H;
    destruct s; try discriminate H; reflexivity.
Qed.

(** X23: the tie [delta == 0].  On an idle, homed driver whose coordinate
    is in range and finite, with a positive [step_size] and a number of
    speed levels that is not negative, a move to the current coordinate
    resolves to the negative direction, plans no pulse and returns with
    the driver and the hardware exactly as they were. *)
Theorem move_to_current_coord_is_noop (d : AxisDriver) (w : World) :
  busy d = false -> homing_done d = true -> in_range d ->
  float_is_finite (current_coord d) = true ->
  (0 <? step_size d)%float = true ->
  (0 <= step_intervals d)%Z ->
  _calculate_direction (current_coord d - current_coord d) = false
  /\ py_int (abs (current_coord d - current_coord d) / step_size d) = Ok 0%Z
  /\ _create_steps_list d 0 = []
  /\ move_to_coordinate (current_coord d) (d, w) = (Ok tt, (d, w)).
Proof.
  intros Hb Hh Hr Hf Hs HI.
  pose proof (sub_diag_zero _ Hf) as Hz.
  assert (Hdir : _calculate_direction (current_coord d - current_coord d)
                 = false).
  { unfold _calculate_direction. rewrite ltb_spec, Hz. reflexivity. }
  assert (Habs : Prim2SF (abs (current_coord d - current_coord d))
                 = S754_zero false).
  { rewrite abs_spec, Hz. reflexivity. }
  assert (Hn : py_int (abs (current_coord d - current_coord d)
                       / step_size d) = Ok 0%Z).
  { unfold py_int. now rewrite (zero_div_positive _ _ Habs Hs). }
  assert (Hplan : _create_steps_list d 0 = []).
  { apply length_zero_iff_nil.
    now rewrite (create_steps_list_length d 0 HI (Z.le_refl 0)). }
  split; [exact Hdir |]. split; [exact Hn |]. split; [exact Hplan |].
  rewrite (move_to_coordinate_run _ d w 0
             (in_range_passes_checks d Hb Hh Hr) (positive_not_zero _ Hs) Hn)
    by (rewrite Hplan; constructor).
  rewrite Hplan. cbn [List.length walk map]. rewrite app_nil_r.
  now destruct d.
Qed.

(** ** A busy flag that was left set *)

(** X24: no method clears a busy flag that was left set.  On a driver
    whose flag is set every move is turned away with "Axis is busy!" and
    changes nothing, and a homing, which still runs, leaves the flag set
    however it ends: once an exception other than [AxisException] has
    left a move, the instance accepts no move again. *)
Theorem busy_never_recovers (sensor : nat -> bool) (d : AxisDriver)
  (w : World) :
  busy d = true ->
  (forall target_coord : float,
      move_to_coordinate target_coord (d, w)
      = (Raise (AxisException "Axis is busy!"), (d, w)))
  /\ (forall (fuel : nat) (r : result unit) (s' : State),
        homing fuel sensor (d, w) = Some (r, s') ->
        busy (fst s') = true)
  /\ (axis_type d = "ROT"%string ->
      forall fuel : nat,
        homing fuel sensor (d, w) = Some (Ok tt, (homed d, w))
        /\ busy (homed d) = true).
Proof.
  intros Hb. split; [| split].
  - intros t. exact (proj1 (move_to_coordinate_rejects t d w) Hb).
  - intros fuel r s' H.
    destruct (homing_cases _ _ _ _ _ _ H) as [[_ E] | (e & _ & E)];
      rewrite E; exact Hb.
  - intros Ht fuel. split; [now apply homing_rot | exact Hb].
Qed.

(** ** The homing service of the node *)

(** X18: the handler of the homing service.  On a rotational axis it
    always returns, with the driver homed and nothing logged.  On a linear
    axis whose rounded budget is a whole number [N + 1] of pulses (and
    whose [max_step] [time.sleep] accepts) it always returns as well, and
    with the same empty response whether homing succeeded, when the sensor
    was read pressed on one of the first [N] samples, or failed on its
    budget: then the driver is as it was, not newly homed, and the only
    trace is the logged message.  An exception of homing that is not an
    [AxisException] leaves the handler, with nothing logged. *)
Theorem homing_handler_outcome (sensor : nat -> bool) (d : AxisDriver)
  (w : World) (res : bool) (out : list node_event) :
  let nd := mkAxisNode (d, w) res out in
  (axis_type d = "ROT"%string ->
   forall fuel : nat,
     homing_handler fuel sensor nd
     = Some (Ok tt, mkAxisNode (homed d, w) res out))
  /\ (forall (pin : Z) (N : nat) (max_steps : float) (fuel : nat),
        axis_type d <> "ROT"%string ->
        endstop_interface d = Some pin ->
        accepted (max_step d) ->
        py_div (max_coord d - min_coord d) (step_size d) = Ok max_steps ->
        py_int_eq_float (Z.of_nat (S N)) max_steps = true ->
        (N < fuel)%nat ->
        exists (d' : AxisDriver) (w' : World) (out' : list node_event),
          homing_handler fuel sensor nd
          = Some (Ok tt, mkAxisNode (d', w') res out')
          /\ (((exists j : nat,
                  (j < N)%nat /\ sensor (samples w + j)%nat = true)
               /\ d' = homed d /\ out' = out)
              \/ ((forall j : nat,
                     (j < N)%nat -> sensor (samples w + j)%nat = false)
                  /\ d' = d /\ out' = out ++ [Logerr max_steps_message]
                  /\ List.length (steps w')
                     = (List.length (steps w) + S N)%nat)))
  /\ (forall (fuel : nat) (e : exn) (s' : State),
        homing fuel sensor (d, w) = Some (Raise e, s') ->
        e <> AxisException max_steps_message ->
        homing_handler fuel sensor nd
        = Some (Raise e, mkAxisNode s' res out)
        /\ (e = ZeroDivisionError \/ e = AttributeError \/ e = ValueError
            \/ e = OverflowError)).
Proof.
  cbv zeta. split; [| split].
  - intros Ht fuel. unfold homing_handler. cbn [axis_driver].
    now rewrite (homing_rot _ _ _ _ Ht).
  - intros pin N ms fuel Ht He Hp Hdiv Hq Hf.
    destruct (homing_whole_budget_run sensor d w pin N ms fuel Ht He Hp
                Hdiv Hq Hf)
      as (r & d' & k & last & Hrun & Hk & Hlast & Hiff
          & [(-> & -> & Hkn & ->) | (-> & -> & ->)]).
    + eexists (homed d), _, out.
      unfold homing_handler.
      cbn [axis_driver axis_action_res ros_out]. rewrite Hrun.
      split; [reflexivity |]. left.
      split; [exact (proj1 Hiff eq_refl) | split; reflexivity].
    + eexists d, _, (out ++ [Logerr max_steps_message]).
      unfold homing_handler.
      cbn [axis_driver axis_action_res ros_out]. rewrite Hrun.
      split; [reflexivity |]. right.
      split; [| split; [reflexivity | split; [reflexivity |]]].
      * intros j Hj.
        destruct (sensor (samples w + j)%nat) eqn:E; [| reflexivity].
        assert (C : Ok tt = Raise (AxisException max_steps_message)
                    :> result unit)
          by (symmetry; apply (proj2 Hiff); eauto).
        discriminate C.
      * rewrite !steps_app, steps_idle_passes, !length_app, repeat_length.
        cbn. lia.
  - intros fuel e s' H Hne.
    assert (Hcases : e = ZeroDivisionError \/ e = AttributeError
                     \/ e = ValueError \/ e = OverflowError).
    { destruct (homing_raises _ _ _ _ _ _ H)
        as [(-> & _) | (_ & [Hp | [(_ & -> & _) | (_ & -> & _)]])]; auto.
      - destruct (time_sleep_raises _ _ Hp) as [-> | ->]; auto.
      - contradiction. }
    split; [| exact Hcases].
    unfold homing_handler. cbn [axis_driver axis_action_res ros_out].
    rewrite H.
    destruct Hcases as [-> | [-> | [-> | ->]]]; reflexivity.
Qed.

(** ** These properties at concrete drivers *)

Lemma move_pulse_count_witness :
  exists n : Z,
    py_int (abs (current_coord (homed rot_driver2) - 1.2)
            / step_size (homed rot_driver2)) = Ok n
    /\ (0 <= n)%Z
    /\ List.length (_create_steps_list (homed rot_driver2) n) = Z.to_nat n
    /\ snd (snd (move_to_coordinate 1.2 (homed rot_driver2, world0)))
       = world0
         ++ map (Step (_calculate_direction
                         (current_coord (homed rot_driver2) - 1.2)))
                (_create_steps_list (homed rot_driver2) n).
Proof.
  destruct (move_pulse_count 1.2 (homed rot_driver2)
              (fst (snd (move_to_coordinate 1.2 (homed rot_driver2, world0))))
              world0
              (snd (snd (move_to_coordinate 1.2 (homed rot_driver2, world0)))))
    as (n & Hn & Hpos & Hlen & Hw & _).
  - vm_compute. reflexivity.
  - simpl. lia.
  - vm_compute. reflexivity.
  - exists n. auto.
Defined.

Lemma move_to_current_coord_is_noop_witness :
  move_to_coordinate (-2) (homed rot_driver, world0)
  = (Ok tt, (homed rot_driver, world0)).
Proof.
  destruct (move_to_current_coord_is_noop (homed rot_driver) world0)
    as (_ & _ & _ & H).
  - reflexivity.
  - reflexivity.
  - split; vm_compute; reflexivity.
  - vm_compute. reflexivity.
  - vm_compute. reflexivity.
  - simpl. lia.
  - exact H.
Defined.

Lemma busy_never_recovers_witness :
  busy (fst (snd (move_to_coordinate nan rot_state1))) = true
  /\ forall target_coord : float,
       move_to_coordinate target_coord (snd (move_to_coordinate nan rot_state1))
       = (Raise (AxisException "Axis is busy!"),
          snd (move_to_coordinate nan rot_state1)).
Proof.
  split; [vm_compute; reflexivity |].
  apply (busy_never_recovers never_triggered
           (fst (snd (move_to_coordinate nan rot_state1)))
           (snd (snd (move_to_coordinate nan rot_state1)))).
  vm_compute. reflexivity.
Defined.

Lemma homing_handler_outcome_witness :
  homing_handler 0 never_triggered (mkAxisNode (rot_driver, world0) false [])
  = Some (Ok tt, mkAxisNode (homed rot_driver, world0) false [])
  /\ exists (d' : AxisDriver) (w' : World) (out' : list node_event),
       homing_handler 5 never_triggered
         (mkAxisNode (lin_driver2, world0) false [])
       = Some (Ok tt, mkAxisNode (d', w') false out')
       /\ (((exists j : nat,
               (j < 1)%nat
               /\ never_triggered (samples world0 + j)%nat = true)
            /\ d' = homed lin_driver2 /\ out' = [])
           \/ ((forall j : nat,
                  (j < 1)%nat
                  -> never_triggered (samples world0 + j)%nat = false)
               /\ d' = lin_driver2
               /\ out' = [] ++ [Logerr max_steps_message]
               /\ List.length (steps w')
                  = (List.length (steps world0) + 2)%nat)).
Proof.
  split.
  - apply (homing_handler_outcome never_triggered rot_driver world0 false []).
    reflexivity.
  - apply (homing_handler_outcome never_triggered lin_driver2 world0 false [])
      with (pin := 7%Z)
           (max_steps := ((max_coord lin_driver2 - min_coord lin_driver2)
                          / step_size lin_driver2)%float).
    + intros H. discriminate H.
    + reflexivity.
    + vm_compute. reflexivity.
    + reflexivity.
    + vm_compute. reflexivity.
    + lia.
Defined.
